(** * Ad-revenue dashboard: metric engine and detail selector

    A shallow embedding of the two core functions of [deploy-2.py]:
    [calculate_all_metrics] (with [calculate_single_dept_metrics]) and
    [get_metric_detail_data].

    Modelling conventions.
    - A pandas DataFrame of transactions is a [list Row]; a boolean Series
      used as a mask is a function [Row -> bool]; [df[mask]] is
      [List.filter mask df]; [&] and [|] on masks are pointwise.
    - A float is an exact rational counted in pence (hundredths of the
      currency unit), so the column ['到账金额_gbp'], which the load step
      rounds to 2 decimals, is an integer number of pence, and [.round(2)]
      is rounding to a whole number of pence (half to even, as numpy does).
    - A Python dict with string keys is a [gmap string num];
      [d.update(e)] is [e ∪ d] and [d.get(k, 0)] is [default (Int 0) (d !! k)].
    - A division by zero and [.round] on a Python int are faults: both are
      [None] in the option monad in which the engine runs.
    - A value of the summary column is kept as the dict holds it, a Python
      int or a float ([num]); pandas stores the column as floats. *)

From Stdlib Require Import ZArith NArith QArith Qround Qabs String Ascii List Lia Bool.
From Stdlib Require Import DecimalString.
From stdpp Require Import gmap strings list fin_maps.
Close Scope Q_scope.
Local Open Scope string_scope.
Local Open Scope Z_scope.

(* ===================================================================== *)
(** ** Python string operations *)
(* ===================================================================== *)

Module PyStr.

(** [sub in s] on strings. *)
Fixpoint contains (sub s : string) : bool :=
  match s with
  | EmptyString => String.prefix sub EmptyString
  | String _ s' => String.prefix sub s || contains sub s'
  end.

(** [s.startswith(p)] *)
Definition startswith (s p : string) : bool := String.prefix p s.

(** [s.replace(old, new)] for a non-empty [old]: occurrences are replaced
    from the left and do not overlap. [skip] counts the characters of an
    occurrence that are still to be dropped. *)
Fixpoint replace_from (old new s : string) (skip : nat) : string :=
  match s with
  | EmptyString => EmptyString
  | String c s' =>
      match skip with
      | S k => replace_from old new s' k
      | O =>
          if String.prefix old s
          then new +:+ replace_from old new s' (String.length old - 1)
          else String c (replace_from old new s' 0)
      end
  end.

Definition replace (s old new : string) : string := replace_from old new s 0.

(** [x in l] for a list of strings. *)
Definition mem (x : string) (l : list string) : bool :=
  existsb (String.eqb x) l.

End PyStr.

(* ===================================================================== *)
(** ** Numbers *)
(* ===================================================================== *)

(** A value held in a metrics dict or in the summary column: a Python int, or
    a float worth [q] pence. *)
Inductive num : Type :=
| Int (n : Z)
| Float (q : Q).

(** A float holding a whole number of pence. *)
Definition pence (z : Z) : Q := inject_Z z.

(** Rounding to the nearest integer, halves to the even neighbour. *)
Definition round_half_even (q : Q) : Z :=
  let f := Qfloor q in
  match Qcompare (Qminus q (inject_Z f)) (1 # 2) with
  | Lt => f
  | Gt => f + 1
  | Eq => if Z.even f then f else f + 1
  end.

(** [x.round(2)] on a float. *)
Definition round2 (q : Q) : Q := pence (round_half_even q).

(** [x / n] for a float [x] and an int [n]; no result when [n] is zero. *)
Definition truediv (x : Q) (n : Z) : option Q :=
  if n =? 0 then None else Some (Qdiv x (inject_Z n)).

(** Truth value of a number in a conditional expression. *)
Definition truthy (v : num) : bool :=
  match v with
  | Int n => negb (n =? 0)
  | Float q => negb (Qnum q =? 0)
  end.

(** [v.round(2)]: a float is rounded, a Python int has no such method. *)
Definition num_round2 (v : num) : option num :=
  match v with
  | Float q => Some (Float (round2 q))
  | Int _ => None
  end.

(* ===================================================================== *)
(** ** Transactions *)
(* ===================================================================== *)

(** One row of the transaction table. The columns are, in order,
    '所属账期', '3级部门', '国家', '广告类型', '到账金额_gbp' (in pence),
    '业务属性', '销售人工号'. *)
Record Row : Type := mkRow {
  period : Z;
  department : string;
  country : string;
  ad_type : string;
  amount : Z;
  business_attribute : string;
  salesperson_id : Z
}.

Definition DataFrame : Type := list Row.
Definition Mask : Type := Row -> bool.

(** Column comparisons: [df[col] == v], [df[col] != v], [df[col].isin(l)]. *)
Definition eqZ (col : Row -> Z) (v : Z) : Mask := fun r => col r =? v.
Definition eqS (col : Row -> string) (v : string) : Mask :=
  fun r => String.eqb (col r) v.
Definition neS (col : Row -> string) (v : string) : Mask :=
  fun r => negb (String.eqb (col r) v).
Definition isin (col : Row -> string) (l : list string) : Mask :=
  fun r => PyStr.mem (col r) l.
(** [pd.Series(True, index=df.index)] *)
Definition all_true : Mask := fun _ => true.

Definition mand (a b : Mask) : Mask := fun r => a r && b r.
Definition mor (a b : Mask) : Mask := fun r => a r || b r.
Infix "&&&" := mand (at level 40, left associativity).
Infix "|||" := mor (at level 50, left associativity).

(** [df[mask]['到账金额_gbp'].sum()] *)
Definition total_pence (rows : DataFrame) : Z :=
  fold_right Z.add 0 (map amount rows).
Definition sum_amount (rows : DataFrame) : Q := pence (total_pence rows).

(** [df[mask]['销售人工号'].nunique()] *)
Definition nunique (rows : DataFrame) : Z :=
  Z.of_nat (length (nodup Z.eq_dec (map salesperson_id rows))).

(* ===================================================================== *)
(** ** 1. Global definitions *)
(* ===================================================================== *)

Definition DEPARTMENTS_COUNTRY : list string :=
  ["AU"; "NZ"; "US"; "CA"; "UK"; "EU"; "JP"; "KP"].
Definition TARGET_PERIOD : Z := 202509.
Definition TARGET_BUSINESS_ATTR : string := "外卖BD".

Definition ALL_METRIC_ORDER : list string :=
  [ "广告收入"; "广告收入——同业收入"; "广告收入——异业收入";
    "广告部：广告收入"; "广告部—同业收入"; "广告部—异业收入";
    "国家：广告收入"; "国家-同业收入"; "国家-异业收入";
    "国家BD人数（实际为有售卖的BD）";
    "广告部BD人数";
    "全球BD人数";
    "全球BD：人均广告收入";
    "广告部BD：人均广告收入";
    "国家BD：人均广告收入" ].

(** The f-string [f'{dept_code}_{name}']. *)
Definition dept_key (dept_code name : string) : string :=
  dept_code +:+ "_" +:+ name.

(* ===================================================================== *)
(** ** 2. Core computation *)
(* ===================================================================== *)

(** [(x / n) if n > 0 else 0] *)
Definition div_if_positive (x : Q) (n : Z) : option num :=
  if 0 <? n then q ← truediv x n; Some (Float q) else Some (Int 0).

(** [v.round(2) if v else 0] *)
Definition round2_if_truthy (v : num) : option num :=
  if truthy v then num_round2 v else Some (Int 0).

(** The value of [(x / n) if n > 0 else 0]. *)
Definition raw_quotient (x : Q) (n : Z) : num :=
  if 0 <? n then Float (Qdiv x (inject_Z n)) else Int 0.

(** The value of a productivity metric with numerator [x] and
    headcount [n]. *)
Definition quotient_metric (x : Q) (n : Z) : num :=
  if 0 <? n
  then if Qnum (Qdiv x (inject_Z n)) =? 0 then Int 0
       else Float (round2 (Qdiv x (inject_Z n)))
  else Int 0.

Definition calculate_single_dept_metrics
    (dept_code : string) (df : DataFrame)
    (target_所属账期 : Z) (target_业务属性 : string)
  : option (gmap string num) :=
  let dept_condition : Mask :=
    eqZ period target_所属账期 &&&
    eqS department dept_code in
  (* revenue *)
  let dept_revenue_total := round2 (sum_amount (List.filter dept_condition df)) in
  let dept_core_revenue :=
    round2 (sum_amount (List.filter
      (dept_condition &&& eqS ad_type "同业广告") df)) in
  let dept_noncore_revenue :=
    round2 (sum_amount (List.filter
      (dept_condition &&& eqS ad_type "异业广告") df)) in
  let dept_aggregated_revenue := round2 (Qmult dept_revenue_total (inject_Z 2)) in
  (* headcount *)
  let dept_count_condition :=
    dept_condition &&& eqS business_attribute target_业务属性 in
  let dept_count := nunique (List.filter dept_count_condition df) in
  let ad_bd_condition : Mask :=
    eqZ period target_所属账期 &&&
    eqS department "AD" &&&
    eqS country dept_code in
  let dept_ad_bd_count := nunique (List.filter ad_bd_condition df) in
  let dept_total_bd_count := dept_count + dept_ad_bd_count in
  (* productivity *)
  dept_global_bd_avg_revenue ← div_if_positive dept_aggregated_revenue dept_total_bd_count;
  dept_ad_bd_avg_revenue ← div_if_positive dept_revenue_total dept_ad_bd_count;
  dept_country_bd_avg_revenue ← div_if_positive dept_revenue_total dept_count;
  v_global ← round2_if_truthy dept_global_bd_avg_revenue;
  v_ad ← round2_if_truthy dept_ad_bd_avg_revenue;
  v_country ← round2_if_truthy dept_country_bd_avg_revenue;
  Some (
    <[dept_key dept_code "国家BD：人均广告收入" := v_country]> (
    <[dept_key dept_code "广告部BD：人均广告收入" := v_ad]> (
    <[dept_key dept_code "全球BD：人均广告收入" := v_global]> (
    <[dept_key dept_code "全球BD人数" := Int dept_total_bd_count]> (
    <[dept_key dept_code "广告部BD人数" := Int dept_ad_bd_count]> (
    <[dept_key dept_code "国家BD人数（实际为有售卖的BD）" := Int dept_count]> (
    <[dept_key dept_code "广告收入——异业收入" :=
        Float (round2 (Qmult dept_noncore_revenue (inject_Z 2)))]> (
    <[dept_key dept_code "广告收入——同业收入" :=
        Float (round2 (Qmult dept_core_revenue (inject_Z 2)))]> (
    <[dept_key dept_code "广告收入" := Float dept_aggregated_revenue]> (
    <[dept_key dept_code "国家-异业收入" := Float dept_noncore_revenue]> (
    <[dept_key dept_code "国家-同业收入" := Float dept_core_revenue]> (
    <[dept_key dept_code "国家：广告收入" := Float dept_revenue_total]> (
    <[dept_key dept_code "广告部—异业收入" := Float dept_noncore_revenue]> (
    <[dept_key dept_code "广告部—同业收入" := Float dept_core_revenue]> (
    <[dept_key dept_code "广告部：广告收入" := Float dept_revenue_total]>
      ∅))))))))))))))).

(** The loop [for dept in DEPARTMENTS: all_dept_values.update(...)]. *)
Fixpoint all_dept_loop (DEPARTMENTS : list string) (df : DataFrame)
    (target_所属账期 : Z) (target_业务属性 : string)
    (all_dept_values : gmap string num) : option (gmap string num) :=
  match DEPARTMENTS with
  | [] => Some all_dept_values
  | dept :: rest =>
      dept_metrics ← calculate_single_dept_metrics dept df target_所属账期 target_业务属性;
      all_dept_loop rest df target_所属账期 target_业务属性
        (dept_metrics ∪ all_dept_values)
  end.

(** One row of the summary table. *)
Record SummaryRow : Type := mkSummaryRow {
  地区 : string;
  指标名称 : string;
  总计金额_gbp : num
}.

(** [map_region], applied to the value of the column '收入类型'. *)
Fixpoint map_region (DEPARTMENTS : list string) (收入类型 : string) : string :=
  match DEPARTMENTS with
  | [] => "全球"
  | dept_code :: rest =>
      if PyStr.startswith 收入类型 (dept_code +:+ "_") then dept_code
      else map_region rest 收入类型
  end.

(** [clean_metric_name], applied to the columns '地区' and '收入类型'. *)
Definition clean_metric_name (region 收入类型 : string) : string :=
  if negb (String.eqb region "全球")
  then PyStr.replace 收入类型 (region +:+ "_") ""
  else 收入类型.

Definition global_new_metrics : list string :=
  ["广告部BD人数"; "全球BD人数"; "全球BD：人均广告收入";
   "广告部BD：人均广告收入"; "国家BD：人均广告收入"].

Definition build_final_order (DEPARTMENTS original_order : list string) : list string :=
  (original_order ++ global_new_metrics ++
   flat_map (fun dept =>
               map (dept_key dept) original_order ++
               map (dept_key dept) global_new_metrics) DEPARTMENTS)%list.

(** The row of the summary for one entry [metric] of [final_order]: its
    value [data_values.get(metric, 0)], its region and its displayed name. *)
Definition summary_row (DEPARTMENTS : list string) (data_values : gmap string num)
    (metric : string) : SummaryRow :=
  let region := map_region DEPARTMENTS metric in
  {| 地区 := region;
     指标名称 := clean_metric_name region metric;
     总计金额_gbp := default (Int 0) (data_values !! metric) |}.

Definition calculate_all_metrics
    (df : DataFrame) (target_所属账期 : Z) (target_业务属性 : string)
    (DEPARTMENTS original_order : list string)
  : option (list SummaryRow) :=
  let target_period_condition : Mask := eqZ period target_所属账期 in
  (* 1a. departments other than AD *)
  let non_ad_condition_total :=
    target_period_condition &&& neS department "AD" in
  let 国家_广告收入_总计 := round2 (sum_amount (List.filter non_ad_condition_total df)) in
  let 同业收入_总计 :=
    round2 (sum_amount (List.filter
      (non_ad_condition_total &&& eqS ad_type "同业广告") df)) in
  let 异业收入_总计 :=
    round2 (sum_amount (List.filter
      (non_ad_condition_total &&& eqS ad_type "异业广告") df)) in
  let country_bd_count_condition :=
    target_period_condition &&&
    isin department DEPARTMENTS &&&
    eqS business_attribute target_业务属性 in
  let 国家BD人数_总计 := nunique (List.filter country_bd_count_condition df) in
  (* 1b. the AD department *)
  let ad_condition :=
    target_period_condition &&& eqS department "AD" in
  let 广告部_广告收入_总计 := round2 (sum_amount (List.filter ad_condition df)) in
  let 广告部_同业收入_总计 :=
    round2 (sum_amount (List.filter
      (ad_condition &&& eqS ad_type "同业广告") df)) in
  let 广告部_异业收入_总计 :=
    round2 (sum_amount (List.filter
      (ad_condition &&& eqS ad_type "异业广告") df)) in
  let 广告部BD人数_总计 := nunique (List.filter ad_condition df) in
  (* 1c. aggregates *)
  let 广告收入_总计 := round2 (Qplus 广告部_广告收入_总计 国家_广告收入_总计) in
  let 广告收入_同业收入_总计 := round2 (Qplus 广告部_同业收入_总计 同业收入_总计) in
  let 广告收入_异业收入_总计 := round2 (Qplus 广告部_异业收入_总计 异业收入_总计) in
  (* 1d. headcount and productivity *)
  let 全球BD人数_总计 := 国家BD人数_总计 + 广告部BD人数_总计 in
  全球BD_人均广告收入_总计 ← div_if_positive 广告收入_总计 全球BD人数_总计;
  广告部BD_人均广告收入_总计 ← div_if_positive 广告部_广告收入_总计 广告部BD人数_总计;
  国家BD_人均广告收入_总计 ← div_if_positive 国家_广告收入_总计 国家BD人数_总计;
  (* 2. every department *)
  all_dept_values ← all_dept_loop DEPARTMENTS df target_所属账期 target_业务属性 ∅;
  (* 3. the values of all metrics *)
  v_global ← round2_if_truthy 全球BD_人均广告收入_总计;
  v_ad ← round2_if_truthy 广告部BD_人均广告收入_总计;
  v_country ← round2_if_truthy 国家BD_人均广告收入_总计;
  let data_values : gmap string num :=
    all_dept_values ∪ (
    <["国家BD：人均广告收入" := v_country]> (
    <["广告部BD：人均广告收入" := v_ad]> (
    <["全球BD：人均广告收入" := v_global]> (
    <["全球BD人数" := Int 全球BD人数_总计]> (
    <["广告部BD人数" := Int 广告部BD人数_总计]> (
    <["国家BD人数（实际为有售卖的BD）" := Int 国家BD人数_总计]> (
    <["国家-异业收入" := Float 异业收入_总计]> (
    <["国家-同业收入" := Float 同业收入_总计]> (
    <["国家：广告收入" := Float 国家_广告收入_总计]> (
    <["广告部—异业收入" := Float 广告部_异业收入_总计]> (
    <["广告部—同业收入" := Float 广告部_同业收入_总计]> (
    <["广告部：广告收入" := Float 广告部_广告收入_总计]> (
    <["广告收入——异业收入" := Float 广告收入_异业收入_总计]> (
    <["广告收入——同业收入" := Float 广告收入_同业收入_总计]> (
    <["广告收入" := Float 广告收入_总计]>
      ∅))))))))))))))) in
  (* 4. the order of the rows *)
  let final_order := build_final_order DEPARTMENTS original_order in
  (* 5. and 6. the region column and the displayed metric name *)
  Some (map (summary_row DEPARTMENTS data_values) final_order).

(* ===================================================================== *)
(** ** 3. Detail selection *)
(* ===================================================================== *)

(** The inner function [revenue_filter] of [get_metric_detail_data]. *)
Definition revenue_filter (condition : Mask) (metric_name : string) : Mask :=
  if PyStr.contains "同业收入" metric_name
  then condition &&& eqS ad_type "同业广告"
  else if PyStr.contains "异业收入" metric_name
  then condition &&& eqS ad_type "异业广告"
  else condition.

Definition get_metric_detail_data
    (df : DataFrame) (metric_name region : string)
    (target_period : Z) (target_biz_attr : string) : DataFrame :=
  let base_condition : Mask := eqZ period target_period in
  if String.eqb region "全球" then
    if PyStr.mem metric_name (firstn 9 ALL_METRIC_ORDER) then
      if PyStr.mem metric_name ["广告收入"; "广告收入——同业收入"; "广告收入——异业收入"] then
        List.filter (base_condition &&& revenue_filter all_true metric_name) df
      else if PyStr.mem metric_name ["广告部：广告收入"; "广告部—同业收入"; "广告部—异业收入"] then
        let ad_condition :=
          base_condition &&& eqS department "AD" in
        List.filter (revenue_filter ad_condition metric_name) df
      else if PyStr.mem metric_name ["国家：广告收入"; "国家-同业收入"; "国家-异业收入"] then
        let non_ad_condition :=
          base_condition &&& neS department "AD" in
        List.filter (revenue_filter non_ad_condition metric_name) df
      else []
    else if PyStr.mem metric_name
              ["国家BD人数（实际为有售卖的BD）"; "全球BD人数"; "广告部BD人数"] then
      if String.eqb metric_name "广告部BD人数" then
        List.filter (base_condition &&& eqS department "AD") df
      else if String.eqb metric_name "国家BD人数（实际为有售卖的BD）" then
        List.filter
          (base_condition &&&
           isin department DEPARTMENTS_COUNTRY &&&
           eqS business_attribute target_biz_attr) df
      else if String.eqb metric_name "全球BD人数" then
        let ad_bd_condition :=
          base_condition &&& eqS department "AD" in
        let country_bd_condition :=
          base_condition &&&
          isin department DEPARTMENTS_COUNTRY &&&
          eqS business_attribute target_biz_attr in
        List.filter (ad_bd_condition ||| country_bd_condition) df
      else []
    else if PyStr.mem metric_name
              ["全球BD：人均广告收入"; "广告部BD：人均广告收入"; "国家BD：人均广告收入"] then
      List.filter base_condition df
    else []
  else
    let dept_condition :=
      base_condition &&& eqS department region in
    if PyStr.mem metric_name (firstn 9 ALL_METRIC_ORDER) then
      List.filter (revenue_filter dept_condition metric_name) df
    else if String.eqb metric_name "国家BD人数（实际为有售卖的BD）" then
      List.filter
        (dept_condition &&&
         eqS business_attribute target_biz_attr) df
    else if String.eqb metric_name "广告部BD人数" then
      List.filter
        (base_condition &&& eqS department "AD" &&&
         eqS country region) df
    else if String.eqb metric_name "全球BD人数" then
      let ad_bd_condition :=
        base_condition &&& eqS department "AD" &&&
        eqS country region in
      let country_bd_condition :=
        base_condition &&& eqS department region in
      List.filter (ad_bd_condition ||| country_bd_condition) df
    else if PyStr.mem metric_name
              ["全球BD：人均广告收入"; "广告部BD：人均广告收入"; "国家BD：人均广告收入"] then
      List.filter dept_condition df
    else [].


(* ===================================================================== *)
(** ** Reading the summary table, and closed forms of its values *)
(* ===================================================================== *)

(** The values of the rows of the summary whose region and metric name are
    the given ones. *)
Definition summary_get (s : list SummaryRow) (region name : string) : list num :=
  map 总计金额_gbp
    (List.filter (fun r => String.eqb (地区 r) region && String.eqb (指标名称 r) name) s).

(** The summary reports [v] for [(region, name)]: there is a row for the
    pair, and every row for the pair carries [v]. *)
Definition reports (s : list SummaryRow) (region name : string) (v : num) : Prop :=
  summary_get s region name <> [] /\
  forall w, In w (summary_get s region name) -> w = v.

(** The number is zero, as a Python int or as a float. *)
Definition is_zero (v : num) : Prop :=
  match v with
  | Int n => n = 0
  | Float q => Qnum q = 0
  end.

(** The number is not negative. *)
Definition num_nonneg (v : num) : Prop :=
  match v with
  | Int n => 0 <= n
  | Float q => 0 <= Qnum q
  end.

(** The number [v] is the quotient of [x] pence by [n] heads as the engine
    reports it: 0 when there is no head or no revenue, and else a whole number
    of pence that, taken [n] times, is within half a penny per head of [x]. *)
Definition close_quotient (v : num) (x n : Z) : Prop :=
  match v with
  | Int k => k = 0 /\ (n <= 0 \/ x = 0)
  | Float q => exists a, q = pence a /\ 0 < n /\ 2 * Z.abs (a * n - x) <= n
  end.

(** The plain, core and non-core metric of each of the three revenue
    families. *)
Definition revenue_families : list (string * string * string) :=
  [ ("广告收入", "广告收入——同业收入", "广告收入——异业收入");
    ("广告部：广告收入", "广告部—同业收入", "广告部—异业收入");
    ("国家：广告收入", "国家-同业收入", "国家-异业收入") ].

(** A country code: it holds no underscore and is not the label of the
    global block. *)
Definition valid_code (d : string) : Prop :=
  PyStr.contains "_" d = false /\ d <> "全球".

(** What [calculate_single_dept_metrics] stores under each metric name,
    written without rounding steps and guards. *)
Definition dept_closed_form
    (d : string) (df : DataFrame) (p : Z) (a : string) : list (string * num) :=
  let dept := eqZ period p &&& eqS department d in
  let R := total_pence (List.filter dept df) in
  let Rc := total_pence (List.filter (dept &&& eqS ad_type "同业广告") df) in
  let Rn := total_pence (List.filter (dept &&& eqS ad_type "异业广告") df) in
  let C := nunique (List.filter (dept &&& eqS business_attribute a) df) in
  let A := nunique (List.filter
             (eqZ period p &&& eqS department "AD" &&& eqS country d) df) in
  [ ("广告收入", Float (pence (2 * R)));
    ("广告收入——同业收入", Float (pence (2 * Rc)));
    ("广告收入——异业收入", Float (pence (2 * Rn)));
    ("广告部：广告收入", Float (pence R));
    ("广告部—同业收入", Float (pence Rc));
    ("广告部—异业收入", Float (pence Rn));
    ("国家：广告收入", Float (pence R));
    ("国家-同业收入", Float (pence Rc));
    ("国家-异业收入", Float (pence Rn));
    ("国家BD人数（实际为有售卖的BD）", Int C);
    ("广告部BD人数", Int A);
    ("全球BD人数", Int (C + A));
    ("全球BD：人均广告收入", quotient_metric (pence (2 * R)) (C + A));
    ("广告部BD：人均广告收入", quotient_metric (pence R) A);
    ("国家BD：人均广告收入", quotient_metric (pence R) C) ].

(** What [calculate_all_metrics] stores under each metric name of the global
    block. *)
Definition global_closed_form
    (df : DataFrame) (p : Z) (a : string) (depts : list string)
  : list (string * num) :=
  let non_ad := eqZ period p &&& neS department "AD" in
  let ad := eqZ period p &&& eqS department "AD" in
  let N := total_pence (List.filter non_ad df) in
  let Nc := total_pence (List.filter (non_ad &&& eqS ad_type "同业广告") df) in
  let Nn := total_pence (List.filter (non_ad &&& eqS ad_type "异业广告") df) in
  let A := total_pence (List.filter ad df) in
  let Ac := total_pence (List.filter (ad &&& eqS ad_type "同业广告") df) in
  let An := total_pence (List.filter (ad &&& eqS ad_type "异业广告") df) in
  let C := nunique (List.filter
             (eqZ period p &&& isin department depts &&& eqS business_attribute a) df) in
  let B := nunique (List.filter ad df) in
  [ ("广告收入", Float (pence (A + N)));
    ("广告收入——同业收入", Float (pence (Ac + Nc)));
    ("广告收入——异业收入", Float (pence (An + Nn)));
    ("广告部：广告收入", Float (pence A));
    ("广告部—同业收入", Float (pence Ac));
    ("广告部—异业收入", Float (pence An));
    ("国家：广告收入", Float (pence N));
    ("国家-同业收入", Float (pence Nc));
    ("国家-异业收入", Float (pence Nn));
    ("国家BD人数（实际为有售卖的BD）", Int C);
    ("广告部BD人数", Int B);
    ("全球BD人数", Int (C + B));
    ("全球BD：人均广告收入", quotient_metric (pence (A + N)) (C + B));
    ("广告部BD：人均广告收入", quotient_metric (pence A) B);
    ("国家BD：人均广告收入", quotient_metric (pence N) C) ].

(** The canonical names of the 15 metrics, for the strings of
    [ALL_METRIC_ORDER]. *)
Abbreviation total_revenue := "广告收入"%string (only parsing).
Abbreviation total_core_revenue := "广告收入——同业收入"%string (only parsing).
Abbreviation total_noncore_revenue := "广告收入——异业收入"%string (only parsing).
Abbreviation ad_dept_revenue := "广告部：广告收入"%string (only parsing).
Abbreviation ad_dept_core_revenue := "广告部—同业收入"%string (only parsing).
Abbreviation ad_dept_noncore_revenue := "广告部—异业收入"%string (only parsing).
Abbreviation country_revenue := "国家：广告收入"%string (only parsing).
Abbreviation country_core_revenue := "国家-同业收入"%string (only parsing).
Abbreviation country_noncore_revenue := "国家-异业收入"%string (only parsing).
Abbreviation country_bd_count := "国家BD人数（实际为有售卖的BD）"%string (only parsing).
Abbreviation ad_dept_bd_count := "广告部BD人数"%string (only parsing).
Abbreviation total_bd_count := "全球BD人数"%string (only parsing).
Abbreviation global_bd_avg_revenue := "全球BD：人均广告收入"%string (only parsing).
Abbreviation ad_dept_bd_avg_revenue := "广告部BD：人均广告收入"%string (only parsing).
Abbreviation country_bd_avg_revenue := "国家BD：人均广告收入"%string (only parsing).
(** The label of the global block in the column '地区'. *)
Abbreviation Global := "全球"%string (only parsing).

(** The transaction of the single-transaction scenario: a core transaction of
    100.00 of department AU in period 202509, sold by salesperson 1 under the
    target business attribute. *)
Definition scenario_au_row : Row :=
  {| period := 202509; department := "AU"; country := "AU";
     ad_type := "同业广告"; amount := 10000;
     business_attribute := TARGET_BUSINESS_ATTR; salesperson_id := 1 |}.

(** The transaction of the AD attribution scenario: 50.00 of department AD
    attributed to JP in period 202509, sold by salesperson 2. The scenario
    leaves the ad type and the business attribute open. *)
Definition scenario_ad_jp_row (ad_type_ attr : string) : Row :=
  {| period := 202509; department := "AD"; country := "JP";
     ad_type := ad_type_; amount := 5000;
     business_attribute := attr; salesperson_id := 2 |}.

(** The six revenue metrics that a department's block holds as they are
    summed, and the three that it holds doubled. *)
Definition single_revenue_metrics : list string :=
  [ad_dept_revenue; ad_dept_core_revenue; ad_dept_noncore_revenue;
   country_revenue; country_core_revenue; country_noncore_revenue].
Definition doubled_revenue_metrics : list string :=
  [total_revenue; total_core_revenue; total_noncore_revenue].

(** The three productivity metrics. *)
Definition productivity_metrics : list string :=
  ["全球BD：人均广告收入"; "广告部BD：人均广告收入"; "国家BD：人均广告收入"].

(* ===================================================================== *)
(** ** 4. The displayed table and its number format *)
(* ===================================================================== *)

(** The regions offered by the region selector. *)
Definition ALL_REGIONS : list string := "全球" :: DEPARTMENTS_COUNTRY.

(** The rows of the summary shown for the selected region. *)
Definition filtered_df (summary_df : list SummaryRow) (selected_region : string)
  : list SummaryRow :=
  if String.eqb selected_region "全球"
  then List.filter (fun r => String.eqb (地区 r) "全球") summary_df
  else List.filter (fun r => String.eqb (地区 r) selected_region) summary_df.

(** [display_df['指标名称'].to_list()] *)
Definition display_names (summary_df : list SummaryRow) (selected_region : string)
  : list string :=
  map 指标名称 (filtered_df summary_df selected_region).

(** The value of a number in hundredths: an int counts units, a float
    pence. *)
Definition hundredths (v : num) : Q :=
  match v with
  | Int n => inject_Z (100 * n)
  | Float q => q
  end.

(** [int(val)]: the number without its fraction, rounded toward zero. *)
Definition to_int (v : num) : Z :=
  match v with
  | Int n => n
  | Float q => Z.quot (Qnum q) (100 * Zpos (Qden q))
  end.

(** [val == int(val)] *)
Definition is_integral (v : num) : bool :=
  match v with
  | Int _ => true
  | Float q => Z.rem (Qnum q) (100 * Zpos (Qden q)) =? 0
  end.

(** The decimal digits of a natural number. *)
Definition digits (n : N) : string := NilZero.string_of_uint (N.to_uint n).

(** The thousands separators of the format [,]: [l] holds the digits from the
    last one on, [k] of which were passed since the last separator. *)
Fixpoint group_thousands (l : list ascii) (k : nat) : list ascii :=
  match l with
  | [] => []
  | c :: l' =>
      if (k =? 3)%nat then ","%char :: c :: group_thousands l' 1
      else c :: group_thousands l' (S k)
  end.

Definition with_commas (s : string) : string :=
  string_of_list_ascii
    (rev (group_thousands (rev (list_ascii_of_string s)) 0)).

(** [f"{n:,}"] for an int. *)
Definition format_int (z : Z) : string :=
  (if z <? 0 then "-" else "") +:+ with_commas (digits (Z.abs_N z)).

(** [f"{val:,.2f}"]: two decimals, halves rounded to the even neighbour, the
    sign of the number kept when it rounds to zero. *)
Definition format_2f (v : num) : string :=
  let q := hundredths v in
  let h := Z.abs_N (round_half_even q) in
  let cents := (h mod 100)%N in
  (if Qnum q <? 0 then "-" else "") +:+
  with_commas (digits (h / 100)%N) +:+ "." +:+
  (if (cents <? 10)%N then "0" +:+ digits cents else digits cents).

(** A cell handed to the formatter: a number, or anything else, shown as it
    is. *)
Inductive cell : Type :=
| Number (v : num)
| Other (s : string).

(** [intelligent_formatter], for the metric names of the displayed table. *)
Definition intelligent_formatter (names : list string) (val : cell) : cell :=
  match val with
  | Number v =>
      if is_integral v && PyStr.mem "BD人数" names
      then Other (format_int (to_int v))
      else Other (format_2f v)
  | Other s => Other s
  end.

(* ===================================================================== *)
(** ** Facts about strings and metric keys *)
(* ===================================================================== *)

Section StringFacts.

Lemma prefix_cons a s1 b s2 :
  String.prefix (String a s1) (String b s2) = true <->
  a = b /\ String.prefix s1 s2 = true.
Proof.
  simpl. destruct (ascii_dec a b) as [->|Hne]; split.
  - auto.
  - intros [_ H]; exact H.
  - discriminate.
  - intros [H _]; contradiction.
Qed.

Lemma prefix_nil_r p : String.prefix p EmptyString = true -> p = EmptyString.
Proof. destruct p; [reflexivity | discriminate]. Qed.

Lemma app_cons x a b : String x a +:+ b = String x (a +:+ b).
Proof. reflexivity. Qed.

Lemma app_nil b : EmptyString +:+ b = b.
Proof. reflexivity. Qed.

Lemma prefix_app p s : String.prefix p (p +:+ s) = true.
Proof.
  induction p as [|a p IH].
  - destruct s; reflexivity.
  - rewrite app_cons. apply prefix_cons. auto.
Qed.

Lemma app_assoc_str a b c : (a +:+ b) +:+ c = a +:+ (b +:+ c).
Proof.
  induction a as [|x a IH]; [reflexivity|].
  rewrite !app_cons. f_equal. exact IH.
Qed.

Lemma contains_us_cons c s :
  PyStr.contains "_" (String c s) = Ascii.eqb "_" c || PyStr.contains "_" s.
Proof.
  cbn [PyStr.contains String.prefix].
  destruct (ascii_dec "_" c) as [<-|Hne].
  - rewrite Ascii.eqb_refl. destruct s; reflexivity.
  - apply Ascii.eqb_neq in Hne. now rewrite Hne.
Qed.

Lemma contains_us_nil : PyStr.contains "_" EmptyString = false.
Proof. reflexivity. Qed.

(** A string that starts with a text holding an underscore holds one. *)
Lemma prefix_us d x n :
  String.prefix (d +:+ String "_" x) n = true -> PyStr.contains "_" n = true.
Proof.
  revert n. induction d as [|a d IH]; intros [|b n] H; try discriminate.
  - change (EmptyString +:+ String "_" x) with (String "_" x) in H.
    apply prefix_cons in H as [<- _].
    rewrite contains_us_cons. reflexivity.
  - change (String a d +:+ String "_" x) with (String a (d +:+ String "_" x)) in H.
    apply prefix_cons in H as [_ H].
    rewrite contains_us_cons, (IH _ H). apply orb_true_r.
Qed.

Lemma contains_us_app d x : PyStr.contains "_" (d +:+ String "_" x) = true.
Proof.
  induction d as [|a d IH].
  - change (EmptyString +:+ String "_" x) with (String "_" x).
    now rewrite contains_us_cons.
  - change (String a d +:+ String "_" x) with (String a (d +:+ String "_" x)).
    rewrite contains_us_cons, IH. apply orb_true_r.
Qed.

Lemma contains_us_key d n : PyStr.contains "_" (dept_key d n) = true.
Proof. apply contains_us_app. Qed.

(** A metric name without underscore is no department key. *)
Lemma plain_name_not_key n d n' :
  PyStr.contains "_" n = false -> n <> dept_key d n'.
Proof. intros H ->. rewrite contains_us_key in H. discriminate. Qed.

(** A key is split in one way only into a code and a name without
    underscore. *)
Lemma dept_key_inj d1 n1 d2 n2 :
  PyStr.contains "_" n1 = false -> PyStr.contains "_" n2 = false ->
  dept_key d1 n1 = dept_key d2 n2 -> d1 = d2 /\ n1 = n2.
Proof.
  unfold dept_key. intros H1 H2. revert d2.
  induction d1 as [|a d1 IH]; intros [|b d2] H;
    rewrite ?app_cons, ?app_nil in H.
  - injection H as ->. auto.
  - injection H as <- ->. rewrite contains_us_app in H1. discriminate.
  - injection H as -> <-. rewrite contains_us_app in H2. discriminate.
  - injection H as -> H. destruct (IH _ H) as [-> ->]. auto.
Qed.

(** With a code and a name free of underscores, only the code's own
    prefix [d_] starts the key [d_n]. *)
Lemma prefix_key_code d' d n :
  PyStr.contains "_" d = false -> PyStr.contains "_" n = false ->
  String.prefix (d' +:+ "_") (dept_key d n) = true -> d' = d.
Proof.
  unfold dept_key. intros Hd Hn. revert d Hd.
  induction d' as [|a d' IH]; intros [|b d] Hd H.
  - reflexivity.
  - change (String.prefix (String "_" EmptyString)
              (String b (d +:+ "_" +:+ n)) = true) in H.
    apply prefix_cons in H as [<- _].
    rewrite contains_us_cons in Hd. discriminate.
  - change (String.prefix (String a (d' +:+ "_")) (String "_" n) = true) in H.
    apply prefix_cons in H as [-> H].
    apply prefix_us in H. congruence.
  - change (String.prefix (String a (d' +:+ "_"))
              (String b (d +:+ "_" +:+ n)) = true) in H.
    apply prefix_cons in H as [-> H].
    rewrite contains_us_cons in Hd. apply orb_false_elim in Hd as [_ Hd].
    f_equal. apply (IH d Hd H).
Qed.

Lemma replace_from_skip old new p s :
  PyStr.replace_from old new (p +:+ s) (String.length p) =
  PyStr.replace_from old new s 0.
Proof.
  induction p as [|a p IH]; [reflexivity | exact IH].
Qed.

(** Nothing is replaced in a text without underscore when the replaced
    text holds one. *)
Lemma replace_from_plain d x new n :
  PyStr.contains "_" n = false ->
  PyStr.replace_from (d +:+ String "_" x) new n 0 = n.
Proof.
  induction n as [|c n IH]; intros Hn; [reflexivity|].
  cbn [PyStr.replace_from].
  destruct (String.prefix (d +:+ String "_" x) (String c n)) eqn:E.
  - apply prefix_us in E. congruence.
  - rewrite contains_us_cons in Hn. apply orb_false_elim in Hn as [_ Hn].
    f_equal. apply IH, Hn.
Qed.

Lemma length_app_str a b :
  String.length (a +:+ b) = (String.length a + String.length b)%nat.
Proof.
  induction a as [|x a IH]; [reflexivity|].
  rewrite app_cons. simpl. now rewrite IH.
Qed.

(** An occurrence at the head of the text is replaced, and the search
    goes on behind it. *)
Lemma replace_from_hit c p new s :
  PyStr.replace_from (String c p) new (String c (p +:+ s)) 0 =
  new +:+ PyStr.replace_from (String c p) new s 0.
Proof.
  cbn [PyStr.replace_from].
  assert (E : String.prefix (String c p) (String c (p +:+ s)) = true).
  { apply prefix_cons. split; [reflexivity | apply prefix_app]. }
  rewrite E. f_equal.
  change (String.length (String c p) - 1)%nat with (S (String.length p) - 1)%nat.
  rewrite Nat.sub_succ, Nat.sub_0_r. apply replace_from_skip.
Qed.

(** Removing the prefix [d_] from the key [d_n] leaves the name [n]. *)
Lemma replace_key d n :
  PyStr.contains "_" n = false ->
  PyStr.replace (dept_key d n) (d +:+ "_") "" = n.
Proof.
  intros Hn. unfold PyStr.replace, dept_key.
  destruct d as [|a d].
  - rewrite !app_nil, app_cons, app_nil.
    pose proof (replace_from_hit "_" "" "" n) as H.
    rewrite !app_nil in H. rewrite H.
    apply (replace_from_plain "" "" "" n Hn).
  - rewrite <- app_assoc_str, !app_cons.
    rewrite (replace_from_hit a (d +:+ "_") "" n), app_nil.
    apply (replace_from_plain (String a d) "" "" n Hn).
Qed.

End StringFacts.

(* ===================================================================== *)
(** ** Facts about rounding and the guarded quotients *)
(* ===================================================================== *)

Section NumberFacts.

Lemma round_half_even_whole q z :
  Qeq q (inject_Z z) -> round_half_even q = z.
Proof.
  intros H. unfold round_half_even.
  rewrite (Qfloor_comp _ _ H), Qfloor_Z.
  assert (H0 : Qeq (Qminus q (inject_Z z)) (0 # 1)).
  { rewrite H. unfold Qeq, Qminus, Qplus, Qopp, inject_Z. simpl. lia. }
  rewrite (Qcompare_comp _ _ H0 _ _ (Qeq_refl (1 # 2))).
  reflexivity.
Qed.

Lemma round2_pence z : round2 (pence z) = pence z.
Proof.
  unfold round2. f_equal. apply round_half_even_whole. apply Qeq_refl.
Qed.

Lemma round2_double z :
  round2 (Qmult (round2 (pence z)) (inject_Z 2)) = pence (2 * z).
Proof.
  rewrite round2_pence. unfold round2. f_equal.
  apply round_half_even_whole.
  unfold Qeq, Qmult, pence, inject_Z. simpl. lia.
Qed.

Lemma round2_plus a b :
  round2 (Qplus (round2 (pence a)) (round2 (pence b))) = pence (a + b).
Proof.
  rewrite !round2_pence. unfold round2. f_equal.
  apply round_half_even_whole.
  unfold Qeq, Qplus, pence, inject_Z. simpl. lia.
Qed.

(** The guard keeps the division away from a zero headcount. *)
Lemma div_if_positive_eq x n : div_if_positive x n = Some (raw_quotient x n).
Proof.
  unfold div_if_positive, raw_quotient, truediv.
  destruct (0 <? n) eqn:E; [|reflexivity].
  apply Z.ltb_lt in E.
  destruct (n =? 0) eqn:E0; [apply Z.eqb_eq in E0; lia | reflexivity].
Qed.

(** [.round(2)] is only called on a float. *)
Lemma round2_if_truthy_raw x n :
  round2_if_truthy (raw_quotient x n) = Some (quotient_metric x n).
Proof.
  unfold round2_if_truthy, raw_quotient, quotient_metric.
  destruct (0 <? n); [|reflexivity].
  cbn [truthy num_round2].
  destruct (Qnum (Qdiv x (inject_Z n)) =? 0); reflexivity.
Qed.

Lemma quotient_metric_zero_count x n : n <= 0 -> quotient_metric x n = Int 0.
Proof.
  intros H. unfold quotient_metric.
  destruct (0 <? n) eqn:E; [apply Z.ltb_lt in E; lia | reflexivity].
Qed.

Lemma nunique_nonneg rows : 0 <= nunique rows.
Proof. unfold nunique. lia. Qed.

End NumberFacts.

(* ===================================================================== *)
(** ** The metrics of one department *)
(* ===================================================================== *)

Section SingleDept.

Lemma names_plain : Forall (fun n => PyStr.contains "_" n = false) ALL_METRIC_ORDER.
Proof. repeat constructor. Qed.

Lemma name_plain n : In n ALL_METRIC_ORDER -> PyStr.contains "_" n = false.
Proof. intros H. exact (proj1 (List.Forall_forall _ _) names_plain n H). Qed.

Lemma dept_closed_form_names d df p a :
  map fst (dept_closed_form d df p a) = ALL_METRIC_ORDER.
Proof. reflexivity. Qed.

Lemma global_closed_form_names df p a depts :
  map fst (global_closed_form df p a depts) = ALL_METRIC_ORDER.
Proof. reflexivity. Qed.

Lemma dept_key_same_code d n1 n2 : dept_key d n1 = dept_key d n2 -> n1 = n2.
Proof.
  unfold dept_key. intros H.
  apply (inj (String.append d)) in H. apply (inj (String.append "_")) in H.
  exact H.
Qed.

Ltac key_ne :=
  let E := fresh in
  intros E; apply dept_key_same_code in E; discriminate E.

Ltac lookup_key :=
  repeat (rewrite lookup_insert_ne by key_ne); apply lookup_insert_eq.

(** The function returns a dict: no quotient is taken by a zero headcount.
    The dict holds the closed forms under the 15 keys of the department, and
    nothing else. *)
Lemma single_dept_spec d df p a :
  exists m,
    calculate_single_dept_metrics d df p a = Some m /\
    (forall n v, In (n, v) (dept_closed_form d df p a) ->
                 m !! dept_key d n = Some v) /\
    (forall k, is_Some (m !! k) ->
               exists n, In n ALL_METRIC_ORDER /\ k = dept_key d n).
Proof.
  unfold calculate_single_dept_metrics.
  rewrite !div_if_positive_eq. cbn [mbind option_bind].
  rewrite !round2_if_truthy_raw. cbn [mbind option_bind].
  unfold sum_amount. rewrite !round2_double, !round2_pence.
  eexists. split; [reflexivity|]. split.
  - intros n v H. unfold dept_closed_form in H. cbn [In] in H.
    repeat (destruct H as [H|H]; [injection H as <- <-; lookup_key|]).
    contradiction.
  - intros k [v H].
    repeat (apply lookup_insert_Some in H as [[<- _]|[_ H]];
            [eexists; split; [|reflexivity]; cbn; tauto|]).
    rewrite lookup_empty in H. discriminate.
Qed.

End SingleDept.

(* ===================================================================== *)
(** ** The summary table *)
(* ===================================================================== *)

Section Summary.

Lemma closed_form_name d df p a n v :
  In (n, v) (dept_closed_form d df p a) -> In n ALL_METRIC_ORDER.
Proof.
  intros H. rewrite <- (dept_closed_form_names d df p a).
  exact (in_map fst _ _ H).
Qed.

Lemma global_form_name df p a depts n v :
  In (n, v) (global_closed_form df p a depts) -> In n ALL_METRIC_ORDER.
Proof.
  intros H. rewrite <- (global_closed_form_names df p a depts).
  exact (in_map fst _ _ H).
Qed.

(** The loop over the departments returns a dict. A key of no department is
    left as it was in the accumulator, and a key of a department of the list
    holds the closed form of that department. *)
Lemma all_dept_loop_spec depts df p a acc :
  exists out,
    all_dept_loop depts df p a acc = Some out /\
    (forall k,
        (forall d n, In d depts -> In n ALL_METRIC_ORDER -> k <> dept_key d n) ->
        out !! k = acc !! k) /\
    (forall d n v,
        In d depts -> In (n, v) (dept_closed_form d df p a) ->
        out !! dept_key d n = Some v).
Proof.
  revert acc. induction depts as [|d0 rest IH]; intros acc.
  - exists acc. split; [reflexivity|]. split; [reflexivity|].
    intros d n v [].
  - cbn [all_dept_loop].
    destruct (single_dept_spec d0 df p a) as (m0 & E0 & Hv0 & Hk0).
    rewrite E0. cbn [mbind option_bind].
    destruct (IH (m0 ∪ acc)) as (out & E & Hi & Hii).
    exists out. split; [exact E|]. split.
    + intros k Hk. rewrite Hi.
      * apply lookup_union_r. destruct (m0 !! k) as [w|] eqn:Em; [|reflexivity].
        destruct (Hk0 k) as (nm & Hn & ->); [eauto|].
        exfalso. apply (Hk d0 nm); [left; reflexivity | exact Hn | reflexivity].
      * intros d n Hd Hn. apply Hk; [right; exact Hd | exact Hn].
    + intros d n v Hd Hin.
      destruct (in_dec string_dec d rest) as [Hr|Hr]; [apply Hii; assumption|].
      destruct Hd as [<-|Hd]; [|contradiction].
      rewrite Hi.
      * apply lookup_union_Some_l. apply Hv0, Hin.
      * intros d' n' Hd' Hn' Heq.
        apply dept_key_inj in Heq as [-> _]; [contradiction | | apply name_plain, Hn'].
        apply name_plain. eapply closed_form_name, Hin.
Qed.

Ltac lookup_name :=
  repeat (rewrite lookup_insert_ne by discriminate); apply lookup_insert_eq.

(** [calculate_all_metrics] returns a table, one row for each entry of
    [final_order], read from a dict that holds the closed forms. *)
Lemma calculate_all_metrics_rows df p a depts :
  exists dv : gmap string num,
    calculate_all_metrics df p a depts ALL_METRIC_ORDER =
      Some (map (summary_row depts dv) (build_final_order depts ALL_METRIC_ORDER)) /\
    (forall n v, In (n, v) (global_closed_form df p a depts) -> dv !! n = Some v) /\
    (forall d n v,
        In d depts -> In (n, v) (dept_closed_form d df p a) ->
        dv !! dept_key d n = Some v).
Proof.
  unfold calculate_all_metrics.
  rewrite !div_if_positive_eq. cbn [mbind option_bind].
  destruct (all_dept_loop_spec depts df p a ∅) as (adv & E & Hi & Hii).
  rewrite E. cbn [mbind option_bind].
  rewrite !round2_if_truthy_raw. cbn [mbind option_bind].
  unfold sum_amount. rewrite !round2_plus, !round2_pence.
  eexists. split; [reflexivity|]. split.
  - intros n v H.
    rewrite lookup_union_r.
    + unfold global_closed_form in H. cbn [In] in H.
      repeat (destruct H as [H|H]; [injection H as <- <-; lookup_name|]).
      contradiction.
    + rewrite Hi; [apply lookup_empty|].
      intros d n' _ _. apply plain_name_not_key.
      apply name_plain. eapply global_form_name, H.
  - intros d n v Hd H. apply lookup_union_Some_l. apply Hii; assumption.
Qed.

Lemma new_metrics_in_order n :
  In n global_new_metrics -> In n ALL_METRIC_ORDER.
Proof. cbn. tauto. Qed.

(** The entries of [final_order]: the metric names, and for each department
    of the list its key of each metric name. *)
Lemma final_order_in depts k :
  In k (build_final_order depts ALL_METRIC_ORDER) <->
  In k ALL_METRIC_ORDER \/
  exists d n, In d depts /\ In n ALL_METRIC_ORDER /\ k = dept_key d n.
Proof.
  unfold build_final_order. rewrite !in_app_iff, in_flat_map. split.
  - intros [H|[H|(d & Hd & H)]].
    + left. exact H.
    + left. apply new_metrics_in_order, H.
    + right. apply in_app_iff in H.
      destruct H as [H|H]; apply in_map_iff in H as (n & <- & Hn);
        exists d, n; auto using new_metrics_in_order.
  - intros [H|(d & n & Hd & Hn & ->)].
    + left. exact H.
    + right. right. exists d. split; [exact Hd|].
      apply in_app_iff. left. apply in_map, Hn.
Qed.

(** A metric name of the global block is labelled with the global region,
    whatever the department codes are. *)
Lemma map_region_plain depts n :
  PyStr.contains "_" n = false -> map_region depts n = "全球".
Proof.
  intros Hn. induction depts as [|d rest IH]; [reflexivity|].
  cbn [map_region]. unfold PyStr.startswith.
  destruct (String.prefix (d +:+ "_") n) eqn:E; [|exact IH].
  apply prefix_us in E. congruence.
Qed.

(** The key of a department whose code has no underscore is labelled with
    that department. *)
Lemma map_region_key depts d n :
  In d depts -> PyStr.contains "_" d = false -> PyStr.contains "_" n = false ->
  map_region depts (dept_key d n) = d.
Proof.
  intros Hd Hud Hn. induction depts as [|d' rest IH]; [destruct Hd|].
  cbn [map_region]. unfold PyStr.startswith.
  destruct (String.prefix (d' +:+ "_") (dept_key d n)) eqn:E.
  - apply (prefix_key_code d' d n Hud Hn E).
  - destruct Hd as [->|Hd]; [|exact (IH Hd)].
    unfold dept_key in E. rewrite <- app_assoc_str, prefix_app in E.
    discriminate.
Qed.

Lemma summary_row_plain depts dv n :
  PyStr.contains "_" n = false ->
  summary_row depts dv n =
  {| 地区 := "全球"; 指标名称 := n; 总计金额_gbp := default (Int 0) (dv !! n) |}.
Proof.
  intros Hn. unfold summary_row. rewrite (map_region_plain depts n Hn).
  reflexivity.
Qed.

Lemma summary_row_key depts dv d n :
  In d depts -> valid_code d -> PyStr.contains "_" n = false ->
  summary_row depts dv (dept_key d n) =
  {| 地区 := d; 指标名称 := n;
     总计金额_gbp := default (Int 0) (dv !! dept_key d n) |}.
Proof.
  intros Hd [Hud Hg] Hn. unfold summary_row.
  rewrite (map_region_key depts d n Hd Hud Hn).
  unfold clean_metric_name.
  apply String.eqb_neq in Hg. rewrite Hg. cbn [negb].
  rewrite (replace_key d n Hn). reflexivity.
Qed.

Lemma summary_get_in s region name w :
  In w (summary_get s region name) <->
  exists r, In r s /\ 地区 r = region /\ 指标名称 r = name /\ 总计金额_gbp r = w.
Proof.
  unfold summary_get. rewrite in_map_iff. split.
  - intros (r & <- & H). apply filter_In in H as [Hr H].
    apply andb_true_iff in H as [H1 H2].
    apply String.eqb_eq in H1, H2. eauto.
  - intros (r & Hr & H1 & H2 & <-). exists r. split; [reflexivity|].
    apply filter_In. split; [exact Hr|].
    apply andb_true_iff. split; apply String.eqb_eq; assumption.
Qed.

Lemma reports_intro s region name v :
  (exists r, In r s /\ 地区 r = region /\ 指标名称 r = name) ->
  (forall r, In r s -> 地区 r = region -> 指标名称 r = name ->
             总计金额_gbp r = v) ->
  reports s region name v.
Proof.
  intros (r & Hr & H1 & H2) Hall. split.
  - intros E.
    assert (H : In (总计金额_gbp r) (summary_get s region name)).
    { apply summary_get_in. eauto. }
    rewrite E in H. destruct H.
  - intros w Hw. apply summary_get_in in Hw as (r' & Hr' & H1' & H2' & <-).
    apply Hall; assumption.
Qed.

(** A value that the summary reports for a pair is the only one. *)
Lemma reports_unique s region name v w :
  reports s region name v -> reports s region name w -> v = w.
Proof.
  intros [Hne Hv] [_ Hw].
  destruct (summary_get s region name) as [|x l]; [contradiction|].
  rewrite <- (Hv x), <- (Hw x); [reflexivity | left; reflexivity ..].
Qed.

(** The summary table of well-formed country codes: the engine returns it,
    it reports the global closed forms for the global region, and for each
    country of the list the closed forms of that country. *)
Lemma summary_spec df p a depts :
  List.Forall valid_code depts ->
  exists s,
    calculate_all_metrics df p a depts ALL_METRIC_ORDER = Some s /\
    (forall n v, In (n, v) (global_closed_form df p a depts) ->
                 reports s "全球" n v) /\
    (forall d n v, In d depts -> In (n, v) (dept_closed_form d df p a) ->
                   reports s d n v).
Proof.
  intros Hvalid.
  assert (Hv : forall d, In d depts -> valid_code d)
    by (apply List.Forall_forall, Hvalid).
  destruct (calculate_all_metrics_rows df p a depts) as (dv & E & Hg & Hd).
  eexists. split; [exact E|].
  assert (Hrow : forall r,
    In r (map (summary_row depts dv) (build_final_order depts ALL_METRIC_ORDER)) ->
    (exists n, In n ALL_METRIC_ORDER /\
       r = {| 地区 := "全球"; 指标名称 := n;
              总计金额_gbp := default (Int 0) (dv !! n) |}) \/
    (exists d n, In d depts /\ In n ALL_METRIC_ORDER /\
       r = {| 地区 := d; 指标名称 := n;
              总计金额_gbp := default (Int 0) (dv !! dept_key d n) |})).
  { intros r Hr. apply in_map_iff in Hr as (k & <- & Hk).
    apply final_order_in in Hk as [Hk|(d & n & Hdd & Hn & ->)].
    - left. exists k. split; [exact Hk|].
      apply summary_row_plain, name_plain, Hk.
    - right. exists d, n. split; [exact Hdd|]. split; [exact Hn|].
      apply summary_row_key; [exact Hdd | apply Hv, Hdd | apply name_plain, Hn]. }
  split.
  - intros n v Hin.
    assert (Hn : In n ALL_METRIC_ORDER) by (eapply global_form_name, Hin).
    apply reports_intro.
    + exists (summary_row depts dv n). split.
      * apply in_map, final_order_in. left. exact Hn.
      * rewrite (summary_row_plain depts dv n (name_plain n Hn)). auto.
    + intros r Hr H1 H2.
      destruct (Hrow r Hr) as [(n' & Hn' & ->)|(d & n' & Hdd & Hn' & ->)];
        cbn in H1, H2 |- *.
      * subst n'. rewrite (Hg n v Hin). reflexivity.
      * subst d. destruct (Hv _ Hdd) as [_ Hne]. contradiction.
  - intros d n v Hdd Hin.
    assert (Hn : In n ALL_METRIC_ORDER) by (eapply closed_form_name, Hin).
    apply reports_intro.
    + exists (summary_row depts dv (dept_key d n)). split.
      * apply in_map, final_order_in. right. eauto.
      * rewrite (summary_row_key depts dv d n Hdd (Hv d Hdd) (name_plain n Hn)).
        auto.
    + intros r Hr H1 H2.
      destruct (Hrow r Hr) as [(n' & Hn' & ->)|(d' & n' & Hdd' & Hn' & ->)];
        cbn in H1, H2 |- *.
      * destruct (Hv _ Hdd) as [_ Hne]. congruence.
      * subst d' n'. rewrite (Hd d n v Hdd Hin). reflexivity.
Qed.

End Summary.

(* ===================================================================== *)
(** ** The detail selector *)
(* ===================================================================== *)

Section Selector.

Lemma mem_In x l : PyStr.mem x l = true <-> In x l.
Proof.
  unfold PyStr.mem. rewrite existsb_exists. split.
  - intros (y & Hy & E). apply String.eqb_eq in E. now subst.
  - intros H. exists x. split; [exact H | apply String.eqb_refl].
Qed.

Lemma mem_not_In x l : ~ In x l -> PyStr.mem x l = false.
Proof.
  intros H. destruct (PyStr.mem x l) eqn:E; [|reflexivity].
  apply mem_In in E. contradiction.
Qed.

Lemma filter_none (df : DataFrame) : List.filter (fun _ => false) df = [].
Proof. induction df as [|r df IH]; [reflexivity | exact IH]. Qed.

(** Filtering by the period first does not change a selection that asks
    for the period itself. *)
Lemma filter_within (P m : Mask) (df : DataFrame) :
  (forall r, m r = true -> P r = true) ->
  List.filter m (List.filter P df) = List.filter m df.
Proof.
  intros H. induction df as [|r df IH]; [reflexivity|].
  cbn [List.filter]. destruct (P r) eqn:EP.
  - cbn [List.filter]. now rewrite IH.
  - destruct (m r) eqn:Em; [|exact IH].
    rewrite (H r Em) in EP. discriminate.
Qed.

End Selector.

Ltac mask_leaf H :=
  repeat match type of H with
         | (_ && _) = true => apply andb_true_iff in H; destruct H as [H _]
         end.

(** Every mask of the program asks for the period in its leftmost test. *)
Ltac mask_in_period :=
  let r := fresh "r" in
  let H := fresh "H" in
  intros r H; unfold mand, mor in H;
  lazymatch type of H with
  | orb _ _ = true => apply orb_true_iff in H; destruct H as [H|H]
  | _ => idtac
  end;
  mask_leaf H; unfold eqZ in H; apply Z.eqb_eq in H; exact H.

Ltac mask_asks_period :=
  let r := fresh "r" in
  let H := fresh "H" in
  intros r H; unfold mand, mor in H;
  lazymatch type of H with
  | orb _ _ = true => apply orb_true_iff in H; destruct H as [H|H]
  | _ => idtac
  end;
  mask_leaf H; exact H.

(** C10. Whatever the metric name and the region, the detail selector returns
    the rows of the input table picked by a mask that only holds for rows of
    the target period: every returned row is a row of the input, unchanged,
    of the target period. *)
Theorem C10_detail_rows_are_input_rows_of_period
    (df : DataFrame) (metric_name region : string) (p : Z) (a : string) :
  (exists mask : Mask,
      get_metric_detail_data df metric_name region p a = List.filter mask df /\
      forall r, mask r = true -> period r = p) /\
  (forall r, In r (get_metric_detail_data df metric_name region p a) ->
             In r df /\ period r = p).
Proof.
  assert (H : exists mask : Mask,
      get_metric_detail_data df metric_name region p a = List.filter mask df /\
      forall r, mask r = true -> period r = p).
  { unfold get_metric_detail_data, revenue_filter.
    repeat match goal with
           | |- context [if ?b then _ else _] => destruct b
           end;
      first
        [ exists (fun _ => false); split;
          [ symmetry; apply filter_none | intros r Hr; discriminate Hr ]
        | eexists; split; [reflexivity | mask_in_period] ]. }
  split; [exact H|].
  destruct H as (mask & -> & Hm). intros r Hr.
  apply filter_In in Hr as [Hin Hr]. split; [exact Hin | apply Hm, Hr].
Qed.

(** C8. A metric name that is none of the 15 names of [ALL_METRIC_ORDER]
    matches no case of the selector, whatever the region is: the selector
    returns the empty table. *)
Theorem C8_unrecognized_metric_gives_empty_detail
    (df : DataFrame) (metric_name region : string) (p : Z) (a : string) :
  ~ In metric_name ALL_METRIC_ORDER ->
  get_metric_detail_data df metric_name region p a = [].
Proof.
  intros H. unfold get_metric_detail_data.
  assert (E9 : PyStr.mem metric_name (firstn 9 ALL_METRIC_ORDER) = false).
  { apply mem_not_In. intros Hin. apply H. cbn in Hin |- *. tauto. }
  assert (E3 : PyStr.mem metric_name
             ["国家BD人数（实际为有售卖的BD）"; "全球BD人数"; "广告部BD人数"] = false).
  { apply mem_not_In. intros Hin. apply H. cbn in Hin |- *. tauto. }
  assert (Ep : PyStr.mem metric_name
             ["全球BD：人均广告收入"; "广告部BD：人均广告收入"; "国家BD：人均广告收入"]
             = false).
  { apply mem_not_In. intros Hin. apply H. cbn in Hin |- *. tauto. }
  assert (Ec : String.eqb metric_name "国家BD人数（实际为有售卖的BD）" = false).
  { apply String.eqb_neq. intros ->. apply H. cbn. tauto. }
  assert (Ea : String.eqb metric_name "广告部BD人数" = false).
  { apply String.eqb_neq. intros ->. apply H. cbn. tauto. }
  assert (Et : String.eqb metric_name "全球BD人数" = false).
  { apply String.eqb_neq. intros ->. apply H. cbn. tauto. }
  rewrite E9, E3, Ep, Ec, Ea, Et.
  destruct (String.eqb region "全球"); reflexivity.
Qed.

(** C9, as stated, fails: for the global region and the metric
    '广告部BD：人均广告收入' the selector returns the one row of the table,
    of department AU, and not the rows of the target period whose department
    is AD, of which there is none. *)
Lemma C9_global_ad_dept_avg_detail_holds_non_ad_rows :
  get_metric_detail_data [scenario_au_row] "广告部BD：人均广告收入" "全球"
    TARGET_PERIOD TARGET_BUSINESS_ATTR = [scenario_au_row] /\
  List.filter (eqZ period TARGET_PERIOD &&& eqS department "AD")
    [scenario_au_row] = [] /\
  get_metric_detail_data [scenario_au_row] "广告部BD：人均广告收入" "全球"
    TARGET_PERIOD TARGET_BUSINESS_ATTR <>
  List.filter (eqZ period TARGET_PERIOD &&& eqS department "AD")
    [scenario_au_row].
Proof.
  split; [reflexivity|]. split; [reflexivity|].
  intros H. vm_compute in H. discriminate H.
Qed.

(** C9, amended. For each of the three productivity metrics the selector
    returns, for the global region, all the rows of the target period,
    whatever their department, and for any other region the rows of the
    target period whose department is the region. *)
Theorem C9_productivity_detail
    (df : DataFrame) (metric_name : string) (p : Z) (a : string) :
  In metric_name productivity_metrics ->
  get_metric_detail_data df metric_name "全球" p a =
    List.filter (eqZ period p) df /\
  forall region, region <> "全球" ->
    get_metric_detail_data df metric_name region p a =
    List.filter (eqZ period p &&& eqS department region) df.
Proof.
  intros H. split.
  - cbn in H. destruct H as [<-|[<-|[<-|[]]]]; reflexivity.
  - intros region Hr. unfold get_metric_detail_data.
    apply String.eqb_neq in Hr. rewrite Hr.
    cbn in H. destruct H as [<-|[<-|[<-|[]]]]; reflexivity.
Qed.

(** C9, amended, at the table of the single-transaction scenario. *)
Lemma C9_productivity_detail_witness :
  In "广告部BD：人均广告收入" productivity_metrics /\
  get_metric_detail_data [scenario_au_row] "广告部BD：人均广告收入" "全球"
    TARGET_PERIOD TARGET_BUSINESS_ATTR =
  List.filter (eqZ period TARGET_PERIOD) [scenario_au_row].
Proof.
  assert (H : In "广告部BD：人均广告收入" productivity_metrics)
    by (right; left; reflexivity).
  split; [exact H|].
  exact (proj1 (C9_productivity_detail [scenario_au_row] _
                  TARGET_PERIOD TARGET_BUSINESS_ATTR H)).
Defined.

(** C8 at a metric name that the program does not know. *)
Lemma C8_unrecognized_metric_witness :
  ~ In "毛利" ALL_METRIC_ORDER /\
  get_metric_detail_data [scenario_au_row] "毛利" "全球"
    TARGET_PERIOD TARGET_BUSINESS_ATTR = [].
Proof.
  assert (H : ~ In "毛利" ALL_METRIC_ORDER).
  { intros H. cbn in H. repeat (destruct H as [H|H]; [discriminate H|]).
    exact H. }
  split; [exact H|].
  exact (C8_unrecognized_metric_gives_empty_detail [scenario_au_row] "毛利" "全球"
           TARGET_PERIOD TARGET_BUSINESS_ATTR H).
Defined.

(* ===================================================================== *)
(** ** The period filter of the engine *)
(* ===================================================================== *)

Lemma single_dept_period d df p a :
  calculate_single_dept_metrics d (List.filter (eqZ period p) df) p a =
  calculate_single_dept_metrics d df p a.
Proof.
  unfold calculate_single_dept_metrics.
  rewrite !(filter_within (eqZ period p)) by mask_asks_period.
  reflexivity.
Qed.

Lemma all_dept_loop_period depts df p a acc :
  all_dept_loop depts (List.filter (eqZ period p) df) p a acc =
  all_dept_loop depts df p a acc.
Proof.
  revert acc. induction depts as [|d rest IH]; intros acc; [reflexivity|].
  cbn [all_dept_loop]. rewrite single_dept_period.
  destruct (calculate_single_dept_metrics d df p a); [apply IH | reflexivity].
Qed.

(** C7. The summary of a table is the summary of its rows of the target
    period: rows of another period contribute to no metric. *)
Theorem C7_off_period_rows_are_ignored
    (df : DataFrame) (p : Z) (a : string) (depts order : list string) :
  calculate_all_metrics df p a depts order =
  calculate_all_metrics (List.filter (eqZ period p) df) p a depts order.
Proof.
  unfold calculate_all_metrics.
  rewrite all_dept_loop_period.
  rewrite !(filter_within (eqZ period p)) by mask_asks_period.
  reflexivity.
Qed.

(* ===================================================================== *)
(** ** The shape of the summary table *)
(* ===================================================================== *)

Lemma build_final_order_length depts :
  length (build_final_order depts ALL_METRIC_ORDER) =
  ((1 + length depts) * 20)%nat.
Proof.
  unfold build_final_order. rewrite !length_app.
  change (length ALL_METRIC_ORDER) with 15%nat.
  change (length global_new_metrics) with 5%nat.
  induction depts as [|d rest IH]; [reflexivity|].
  cbn [flat_map length]. rewrite !length_app, !length_map.
  change (length ALL_METRIC_ORDER) with 15%nat.
  change (length global_new_metrics) with 5%nat.
  lia.
Qed.

(** C2, what the code does. The summary table has 20 rows for each region and
    not 15: [final_order] is [original_order], which holds the 15 names,
    extended by the five names of [global_new_metrics], which are among the
    15. The pair of region and metric name is then no key of the table. *)
Theorem C2_summary_has_twenty_rows_per_region
    (df : DataFrame) (p : Z) (a : string) (depts : list string) :
  exists s,
    calculate_all_metrics df p a depts ALL_METRIC_ORDER = Some s /\
    length s = ((1 + length depts) * 20)%nat /\
    ~ List.NoDup (map (fun r => (地区 r, 指标名称 r)) s).
Proof.
  destruct (calculate_all_metrics_rows df p a depts) as (dv & E & _ & _).
  eexists. split; [exact E|]. split.
  - rewrite length_map. apply build_final_order_length.
  - rewrite map_map.
    set (g := fun k => (地区 (summary_row depts dv k),
                        指标名称 (summary_row depts dv k))).
    change (build_final_order depts ALL_METRIC_ORDER) with
      (firstn 10 ALL_METRIC_ORDER ++
       ad_dept_bd_count ::
       (skipn 11 ALL_METRIC_ORDER ++
        ad_dept_bd_count ::
        (tl global_new_metrics ++
         flat_map (fun dept =>
                     map (dept_key dept) ALL_METRIC_ORDER ++
                     map (dept_key dept) global_new_metrics) depts)))%list.
    rewrite map_app. cbn [map]. intros H.
    apply NoDup_remove_2 in H. apply H.
    apply in_or_app. right. apply in_map.
    apply in_or_app. right. left. reflexivity.
Qed.

(** Every pair of a region and one of the 15 metric names has a value in the
    summary, for well-formed country codes. *)
Lemma every_pair_is_reported df p a depts :
  List.Forall valid_code depts ->
  exists s,
    calculate_all_metrics df p a depts ALL_METRIC_ORDER = Some s /\
    forall region n, In region (Global :: depts) -> In n ALL_METRIC_ORDER ->
      exists v, reports s region n v.
Proof.
  intros Hvalid.
  destruct (summary_spec df p a depts Hvalid) as (s & E & Hg & Hd).
  exists s. split; [exact E|]. intros region n [<-|Hin] Hn.
  - rewrite <- (global_closed_form_names df p a depts) in Hn.
    apply in_map_iff in Hn as ([n' v] & <- & Hv). exists v. apply Hg, Hv.
  - rewrite <- (dept_closed_form_names region df p a) in Hn.
    apply in_map_iff in Hn as ([n' v] & <- & Hv). exists v.
    apply (Hd region _ _ Hin Hv).
Qed.

Lemma filter_no_match (m : Mask) (df : DataFrame) :
  (forall r, In r df -> m r = false) -> List.filter m df = [].
Proof.
  induction df as [|r df IH]; intros H; [reflexivity|].
  cbn [List.filter]. rewrite (H r (or_introl eq_refl)).
  apply IH. intros r' Hr'. apply H. right. exact Hr'.
Qed.

(** X11. A country without a transaction in the target period, neither of its
    own department nor of the AD department attributed to it, has all its 15
    metrics in the summary, each with value 0. *)
Lemma country_without_rows_reports_zero df p a depts d :
  List.Forall valid_code depts -> In d depts ->
  (forall r, In r df -> period r = p ->
             department r <> d /\ ~ (department r = "AD" /\ country r = d)) ->
  exists s,
    calculate_all_metrics df p a depts ALL_METRIC_ORDER = Some s /\
    forall n, In n ALL_METRIC_ORDER -> exists v, reports s d n v /\ is_zero v.
Proof.
  intros Hvalid Hin Hnone.
  destruct (summary_spec df p a depts Hvalid) as (s & E & _ & Hd).
  exists s. split; [exact E|]. intros n Hn.
  rewrite <- (dept_closed_form_names d df p a) in Hn.
  apply in_map_iff in Hn as ([n' v] & <- & Hv). exists v.
  split; [apply (Hd d _ _ Hin Hv)|].
  assert (Hown : forall c : Mask,
             List.filter (eqZ period p &&& eqS department d &&& c) df = []).
  { intros c. apply filter_no_match. intros r Hr. unfold mand, eqZ, eqS.
    destruct (period r =? p) eqn:Ep; [|reflexivity].
    apply Z.eqb_eq in Ep. destruct (Hnone r Hr Ep) as [Hne _].
    apply String.eqb_neq in Hne. rewrite Hne. reflexivity. }
  assert (Hown' : List.filter (eqZ period p &&& eqS department d) df = []).
  { apply filter_no_match. intros r Hr. unfold mand, eqZ, eqS.
    destruct (period r =? p) eqn:Ep; [|reflexivity].
    apply Z.eqb_eq in Ep. destruct (Hnone r Hr Ep) as [Hne _].
    apply String.eqb_neq in Hne. rewrite Hne. reflexivity. }
  assert (Had : List.filter
                  (eqZ period p &&& eqS department "AD" &&& eqS country d) df
                = []).
  { apply filter_no_match. intros r Hr. unfold mand, eqZ, eqS.
    destruct (period r =? p) eqn:Ep; [|reflexivity].
    apply Z.eqb_eq in Ep. destruct (Hnone r Hr Ep) as [_ Hne].
    destruct (String.eqb (department r) "AD") eqn:E1; [|reflexivity].
    destruct (String.eqb (country r) d) eqn:E2; [|reflexivity].
    apply String.eqb_eq in E1, E2. exfalso. apply Hne. auto. }
  unfold dept_closed_form in Hv. rewrite !Hown, Hown', Had in Hv.
  cbn [In] in Hv.
  repeat (destruct Hv as [Hv|Hv]; [injection Hv as _ <-; reflexivity|]).
  contradiction.
Qed.

(* ===================================================================== *)
(** ** Headcounts, doubled totals and guarded quotients *)
(* ===================================================================== *)

Ltac pick_entry :=
  unfold dept_closed_form, global_closed_form; cbn [In];
  repeat first [left; reflexivity | right].

(** C4. In the global block and in the block of each country, the summary
    reports for total_bd_count the plain sum of the two numbers of distinct
    salespersons that it reports for country_bd_count and ad_dept_bd_count. *)
Theorem C4_total_bd_count_is_plain_sum
    (df : DataFrame) (p : Z) (a : string) (depts : list string) :
  List.Forall valid_code depts ->
  exists s,
    calculate_all_metrics df p a depts ALL_METRIC_ORDER = Some s /\
    (let C := nunique (List.filter
                 (eqZ period p &&& isin department depts &&&
                  eqS business_attribute a) df) in
     let B := nunique (List.filter (eqZ period p &&& eqS department "AD") df) in
     reports s Global country_bd_count (Int C) /\
     reports s Global ad_dept_bd_count (Int B) /\
     reports s Global total_bd_count (Int (C + B))) /\
    (forall d, In d depts ->
     let C := nunique (List.filter
                 (eqZ period p &&& eqS department d &&&
                  eqS business_attribute a) df) in
     let A := nunique (List.filter
                 (eqZ period p &&& eqS department "AD" &&& eqS country d) df) in
     reports s d country_bd_count (Int C) /\
     reports s d ad_dept_bd_count (Int A) /\
     reports s d total_bd_count (Int (C + A))).
Proof.
  intros Hvalid.
  destruct (summary_spec df p a depts Hvalid) as (s & E & Hg & Hd).
  exists s. split; [exact E|]. split.
  - cbv zeta. split; [|split]; apply Hg; pick_entry.
  - intros d Hin. cbv zeta. split; [|split]; apply (Hd d _ _ Hin); pick_entry.
Qed.

Lemma valid_departments_country : List.Forall valid_code DEPARTMENTS_COUNTRY.
Proof. repeat constructor; discriminate. Qed.

Lemma valid_au : List.Forall valid_code ["AU"].
Proof. repeat constructor; discriminate. Qed.

(** C4 at the single-transaction scenario. *)
Lemma C4_total_bd_count_witness :
  List.Forall valid_code ["AU"] /\
  exists s,
    calculate_all_metrics [scenario_au_row] TARGET_PERIOD TARGET_BUSINESS_ATTR
      ["AU"] ALL_METRIC_ORDER = Some s /\
    reports s "AU" country_bd_count (Int 1) /\
    reports s "AU" ad_dept_bd_count (Int 0) /\
    reports s "AU" total_bd_count (Int (1 + 0)).
Proof.
  split; [exact valid_au|].
  destruct (C4_total_bd_count_is_plain_sum [scenario_au_row] TARGET_PERIOD
              TARGET_BUSINESS_ATTR ["AU"] valid_au) as (s & E & _ & Hd).
  exists s. split; [exact E|].
  exact (Hd "AU" (or_introl eq_refl)).
Defined.

(** C5. In the block of each country the three total revenues are twice the
    three country revenues, which are the sums over the rows of the target
    period whose department is the country. In the scenario of one core
    transaction of 100.00 of department AU, the block of AU reports 100.00,
    100.00 and 0 for the country revenues, 200.00 for the total revenue, one
    country salesperson, one salesperson in total, and 100.00 per country
    salesperson. *)
Theorem C5_country_totals_are_doubled
    (df : DataFrame) (p : Z) (a : string) (depts : list string) :
  List.Forall valid_code depts ->
  (exists s,
    calculate_all_metrics df p a depts ALL_METRIC_ORDER = Some s /\
    forall d, In d depts ->
      let dept := eqZ period p &&& eqS department d in
      let R := total_pence (List.filter dept df) in
      let Rc := total_pence (List.filter (dept &&& eqS ad_type "同业广告") df) in
      let Rn := total_pence (List.filter (dept &&& eqS ad_type "异业广告") df) in
      reports s d country_revenue (Float (pence R)) /\
      reports s d country_core_revenue (Float (pence Rc)) /\
      reports s d country_noncore_revenue (Float (pence Rn)) /\
      reports s d total_revenue (Float (pence (2 * R))) /\
      reports s d total_core_revenue (Float (pence (2 * Rc))) /\
      reports s d total_noncore_revenue (Float (pence (2 * Rn)))) /\
  (exists s,
    calculate_all_metrics [scenario_au_row] 202509 TARGET_BUSINESS_ATTR
      ["AU"] ALL_METRIC_ORDER = Some s /\
    reports s "AU" country_revenue (Float (pence 10000)) /\
    reports s "AU" country_core_revenue (Float (pence 10000)) /\
    reports s "AU" country_noncore_revenue (Float (pence 0)) /\
    reports s "AU" total_revenue (Float (pence 20000)) /\
    reports s "AU" country_bd_count (Int 1) /\
    reports s "AU" total_bd_count (Int 1) /\
    reports s "AU" country_bd_avg_revenue (Float (pence 10000))).
Proof.
  intros Hvalid. split.
  - destruct (summary_spec df p a depts Hvalid) as (s & E & _ & Hd).
    exists s. split; [exact E|]. intros d Hin. cbv zeta.
    split; [|split; [|split; [|split; [|split]]]];
      apply (Hd d _ _ Hin); pick_entry.
  - destruct (summary_spec [scenario_au_row] 202509 TARGET_BUSINESS_ATTR ["AU"]
                valid_au) as (s & E & _ & Hd).
    exists s. split; [exact E|].
    assert (Hin : In "AU" ["AU"]) by (left; reflexivity).
    split; [|split; [|split; [|split; [|split; [|split]]]]];
      apply (Hd "AU" _ _ Hin); vm_compute;
      repeat first [left; reflexivity | right].
Qed.

(** C5 at the single transaction and the eight countries of the program. *)
Lemma C5_country_totals_witness :
  List.Forall valid_code DEPARTMENTS_COUNTRY /\
  exists s,
    calculate_all_metrics [scenario_au_row] TARGET_PERIOD TARGET_BUSINESS_ATTR
      DEPARTMENTS_COUNTRY ALL_METRIC_ORDER = Some s /\
    reports s "AU" country_revenue (Float (pence 10000)) /\
    reports s "AU" total_revenue (Float (pence (2 * 10000))).
Proof.
  split; [exact valid_departments_country|].
  destruct (C5_country_totals_are_doubled [scenario_au_row] TARGET_PERIOD
              TARGET_BUSINESS_ATTR DEPARTMENTS_COUNTRY valid_departments_country)
    as [(s & E & Hd) _].
  exists s. split; [exact E|].
  destruct (Hd "AU" (or_introl eq_refl)) as (H1 & _ & _ & H4 & _).
  split; [exact H1 | exact H4].
Defined.

Lemma reports_int_zero s region name n :
  reports s region name (Int n) -> reports s region name (Int 0) -> n = 0.
Proof.
  intros H1 H2. pose proof (reports_unique _ _ _ _ _ H1 H2) as E.
  injection E as E. exact E.
Qed.

(** The closed form of a productivity metric is 0 when its headcount is. *)
Ltac zero_quotient from_spec H0 :=
  lazymatch goal with
  | |- reports ?s ?r ?n _ =>
      let H := fresh "H" in
      eassert (H : reports s r n _) by (from_spec; pick_entry);
      rewrite quotient_metric_zero_count in H
        by (apply Z.eq_le_incl; exact H0);
      exact H
  end.

(** C6. The engine returns a summary for every table and every list of
    departments: no quotient is taken by a zero headcount. In the block of
    every region, a productivity metric whose headcount is reported as 0 is
    reported as 0, whatever the revenue is. *)
Theorem C6_zero_headcount_gives_zero_productivity
    (df : DataFrame) (p : Z) (a : string) (depts : list string) :
  exists s,
    calculate_all_metrics df p a depts ALL_METRIC_ORDER = Some s /\
    (List.Forall valid_code depts ->
     forall region, In region (Global :: depts) ->
       (reports s region total_bd_count (Int 0) ->
        reports s region global_bd_avg_revenue (Int 0)) /\
       (reports s region ad_dept_bd_count (Int 0) ->
        reports s region ad_dept_bd_avg_revenue (Int 0)) /\
       (reports s region country_bd_count (Int 0) ->
        reports s region country_bd_avg_revenue (Int 0))).
Proof.
  destruct (calculate_all_metrics_rows df p a depts) as (dv & E & _ & _).
  exists (map (summary_row depts dv) (build_final_order depts ALL_METRIC_ORDER)).
  split; [exact E|].
  intros Hvalid region Hin.
  destruct (summary_spec df p a depts Hvalid) as (s & E' & Hg & Hd).
  assert (Es : s = map (summary_row depts dv)
                     (build_final_order depts ALL_METRIC_ORDER)) by congruence.
  rewrite <- Es. clear Es E dv.
  destruct Hin as [<-|Hin].
  - split; [|split]; intros H0;
      (eapply reports_int_zero in H0; [|apply Hg; pick_entry]);
      zero_quotient ltac:(apply Hg) H0.
  - split; [|split]; intros H0;
      (eapply reports_int_zero in H0; [|apply (Hd region _ _ Hin); pick_entry]);
      zero_quotient ltac:(apply (Hd region _ _ Hin)) H0.
Qed.

(** C6 at the single-transaction scenario: AU has revenue and no salesperson
    of the AD department. *)
Lemma C6_zero_headcount_witness :
  exists s,
    calculate_all_metrics [scenario_au_row] TARGET_PERIOD TARGET_BUSINESS_ATTR
      ["AU"] ALL_METRIC_ORDER = Some s /\
    reports s "AU" ad_dept_revenue (Float (pence 10000)) /\
    reports s "AU" ad_dept_bd_count (Int 0) /\
    reports s "AU" ad_dept_bd_avg_revenue (Int 0).
Proof.
  destruct (C6_zero_headcount_gives_zero_productivity [scenario_au_row]
              TARGET_PERIOD TARGET_BUSINESS_ATTR ["AU"]) as (s & E & H).
  exists s. split; [exact E|].
  destruct (summary_spec [scenario_au_row] TARGET_PERIOD TARGET_BUSINESS_ATTR
              ["AU"] valid_au) as (s' & E' & _ & Hd).
  assert (Es : s' = s) by congruence. subst s'.
  assert (Hin : In "AU" ["AU"]) by (left; reflexivity).
  assert (Hrev : reports s "AU" ad_dept_revenue (Float (pence 10000))).
  { apply (Hd "AU" _ _ Hin). vm_compute.
    repeat first [left; reflexivity | right]. }
  assert (Hcount : reports s "AU" ad_dept_bd_count (Int 0)).
  { apply (Hd "AU" _ _ Hin). vm_compute.
    repeat first [left; reflexivity | right]. }
  split; [exact Hrev|]. split; [exact Hcount|].
  destruct (H valid_au "AU" (or_intror Hin)) as (_ & Hguard & _).
  exact (Hguard Hcount).
Defined.

(* ===================================================================== *)
(** ** Reconciliation of the detail rows with the summary *)
(* ===================================================================== *)

(** A selection that is the union of two disjoint selections sums to the sum
    of the two. *)
Lemma total_pence_split (m m1 m2 : Mask) (df : DataFrame) :
  (forall r, m r = m1 r || m2 r) ->
  (forall r, m1 r && m2 r = false) ->
  total_pence (List.filter m df) =
  total_pence (List.filter m1 df) + total_pence (List.filter m2 df).
Proof.
  intros Hm Hd. unfold total_pence.
  induction df as [|r df IH]; [reflexivity|].
  cbn [List.filter]. rewrite (Hm r). specialize (Hd r).
  destruct (m1 r), (m2 r); cbn in Hd |- *; try discriminate; lia.
Qed.

Ltac split_by_department :=
  apply total_pence_split;
  intros r; unfold mand, all_true, eqS, neS;
  destruct (eqZ period _ r), (String.eqb (department r) "AD"),
    (String.eqb (ad_type r) _); reflexivity.

Lemma total_all_departments p df :
  total_pence (List.filter (eqZ period p &&& all_true) df) =
  total_pence (List.filter (eqZ period p &&& eqS department "AD") df) +
  total_pence (List.filter (eqZ period p &&& neS department "AD") df).
Proof.
  apply total_pence_split;
    intros r; unfold mand, all_true, eqS, neS;
    destruct (eqZ period p r), (String.eqb (department r) "AD"); reflexivity.
Qed.

Lemma total_all_departments_of_type p t df :
  total_pence (List.filter (eqZ period p &&& (all_true &&& eqS ad_type t)) df) =
  total_pence (List.filter
                 (eqZ period p &&& eqS department "AD" &&& eqS ad_type t) df) +
  total_pence (List.filter
                 (eqZ period p &&& neS department "AD" &&& eqS ad_type t) df).
Proof. split_by_department. Qed.

(** C1, as stated, fails: with one core transaction of 100.00 of department
    AU, the summary reports 200.00 as the total revenue of AU, and the detail
    rows of that metric sum to 100.00. *)
Lemma C1_country_total_revenue_is_twice_its_detail :
  exists s,
    calculate_all_metrics [scenario_au_row] TARGET_PERIOD TARGET_BUSINESS_ATTR
      ["AU"] ALL_METRIC_ORDER = Some s /\
    reports s "AU" total_revenue (Float (pence 20000)) /\
    sum_amount (get_metric_detail_data [scenario_au_row] total_revenue "AU"
                  TARGET_PERIOD TARGET_BUSINESS_ATTR) = pence 10000 /\
    ~ reports s "AU" total_revenue
        (Float (sum_amount
                  (get_metric_detail_data [scenario_au_row] total_revenue "AU"
                     TARGET_PERIOD TARGET_BUSINESS_ATTR))).
Proof.
  destruct (summary_spec [scenario_au_row] TARGET_PERIOD TARGET_BUSINESS_ATTR
              ["AU"] valid_au) as (s & E & _ & Hd).
  exists s. split; [exact E|].
  assert (H : reports s "AU" total_revenue (Float (pence 20000))).
  { apply (Hd "AU"); [left; reflexivity|]. vm_compute.
    repeat first [left; reflexivity | right]. }
  split; [exact H|]. split; [reflexivity|].
  intros H'. pose proof (reports_unique _ _ _ _ _ H H') as Ev.
  vm_compute in Ev. discriminate Ev.
Qed.

(** C1, amended. For the global region, the amounts of the detail rows of each
    of the 9 revenue metrics sum to the value of the summary. For a country,
    they do for the six ad_dept and country revenue metrics; for the three
    total revenue metrics the value of the summary is twice the sum of the
    detail rows, which are the rows of the target period whose department is
    the country, narrowed to the core or to the non-core ad type for the core
    and the non-core total. *)
Theorem C1_detail_reconciles_up_to_doubled_totals
    (df : DataFrame) (p : Z) (a : string) (depts : list string) :
  List.Forall valid_code depts ->
  exists s,
    calculate_all_metrics df p a depts ALL_METRIC_ORDER = Some s /\
    (forall m, In m (firstn 9 ALL_METRIC_ORDER) ->
       reports s Global m
         (Float (sum_amount (get_metric_detail_data df m Global p a)))) /\
    (forall d m, In d depts -> In m single_revenue_metrics ->
       reports s d m (Float (sum_amount (get_metric_detail_data df m d p a)))) /\
    (forall d m, In d depts -> In m doubled_revenue_metrics ->
       reports s d m
         (Float (pence (2 * total_pence (get_metric_detail_data df m d p a))))) /\
    (forall d, In d depts ->
       get_metric_detail_data df total_revenue d p a =
         List.filter (eqZ period p &&& eqS department d) df /\
       get_metric_detail_data df total_core_revenue d p a =
         List.filter
           (eqZ period p &&& eqS department d &&& eqS ad_type "同业广告") df /\
       get_metric_detail_data df total_noncore_revenue d p a =
         List.filter
           (eqZ period p &&& eqS department d &&& eqS ad_type "异业广告") df).
Proof.
  intros Hvalid.
  assert (Hv : forall d, In d depts -> valid_code d)
    by (apply List.Forall_forall, Hvalid).
  destruct (summary_spec df p a depts Hvalid) as (s & E & Hg & Hd).
  exists s. split; [exact E|]. split; [|split; [|split]].
  - intros m Hm. cbn in Hm.
    destruct Hm as [<-|[<-|[<-|[<-|[<-|[<-|[<-|[<-|[<-|[]]]]]]]]]];
      unfold sum_amount;
      try (change (get_metric_detail_data df total_revenue Global p a)
             with (List.filter (eqZ period p &&& all_true) df);
           rewrite total_all_departments);
      try (change (get_metric_detail_data df total_core_revenue Global p a)
             with (List.filter
                     (eqZ period p &&& (all_true &&& eqS ad_type "同业广告")) df);
           rewrite total_all_departments_of_type);
      try (change (get_metric_detail_data df total_noncore_revenue Global p a)
             with (List.filter
                     (eqZ period p &&& (all_true &&& eqS ad_type "异业广告")) df);
           rewrite total_all_departments_of_type);
      apply Hg; pick_entry.
  - intros d m Hin Hm. destruct (Hv d Hin) as [_ Hne].
    apply String.eqb_neq in Hne.
    unfold get_metric_detail_data. rewrite Hne.
    cbn in Hm. destruct Hm as [<-|[<-|[<-|[<-|[<-|[<-|[]]]]]]];
      apply (Hd d _ _ Hin); pick_entry.
  - intros d m Hin Hm. destruct (Hv d Hin) as [_ Hne].
    apply String.eqb_neq in Hne.
    unfold get_metric_detail_data. rewrite Hne.
    cbn in Hm. destruct Hm as [<-|[<-|[<-|[]]]];
      apply (Hd d _ _ Hin); pick_entry.
  - intros d Hin. destruct (Hv d Hin) as [_ Hne].
    apply String.eqb_neq in Hne.
    unfold get_metric_detail_data. rewrite Hne.
    split; [|split]; reflexivity.
Qed.

(** C1, amended, at the single-transaction scenario. *)
Lemma C1_detail_reconciles_witness :
  List.Forall valid_code ["AU"] /\
  exists s,
    calculate_all_metrics [scenario_au_row] TARGET_PERIOD TARGET_BUSINESS_ATTR
      ["AU"] ALL_METRIC_ORDER = Some s /\
    reports s Global total_revenue (Float (pence 10000)) /\
    reports s "AU" country_revenue (Float (pence 10000)) /\
    reports s "AU" total_revenue (Float (pence (2 * 10000))).
Proof.
  split; [exact valid_au|].
  destruct (C1_detail_reconciles_up_to_doubled_totals [scenario_au_row]
              TARGET_PERIOD TARGET_BUSINESS_ATTR ["AU"] valid_au)
    as (s & E & Hg & Hs & Hd & _).
  exists s. split; [exact E|].
  assert (Hin : In "AU" ["AU"]) by (left; reflexivity).
  split; [|split].
  - exact (Hg total_revenue (or_introl eq_refl)).
  - apply (Hs "AU" country_revenue Hin). cbn. tauto.
  - apply (Hd "AU" total_revenue Hin). left. reflexivity.
Defined.

(* ===================================================================== *)
(** ** Attribution of the rows of the AD department *)
(* ===================================================================== *)

Lemma total_pence_cons (m : Mask) (t : Row) (df : DataFrame) :
  total_pence (List.filter m (t :: df)) =
  (if m t then amount t else 0) + total_pence (List.filter m df).
Proof.
  unfold total_pence. cbn [List.filter]. destruct (m t); reflexivity.
Qed.

(** C3, as stated, fails: for the table that holds only the transaction of
    50.00 of department AD attributed to JP, the summary reports 0 as the
    ad_dept_revenue of JP, and not the 50.00 that the rows of the period
    with department AD and country JP sum to. *)
Lemma C3_ad_row_is_not_in_country_ad_dept_revenue :
  exists s,
    calculate_all_metrics
      [scenario_ad_jp_row "同业广告" TARGET_BUSINESS_ATTR]
      TARGET_PERIOD TARGET_BUSINESS_ATTR DEPARTMENTS_COUNTRY ALL_METRIC_ORDER
      = Some s /\
    reports s "JP" ad_dept_revenue (Float (pence 0)) /\
    sum_amount
      (List.filter
         (eqZ period TARGET_PERIOD &&& eqS department "AD" &&& eqS country "JP")
         [scenario_ad_jp_row "同业广告" TARGET_BUSINESS_ATTR]) = pence 5000 /\
    ~ reports s "JP" ad_dept_revenue
        (Float (sum_amount
           (List.filter
              (eqZ period TARGET_PERIOD &&& eqS department "AD" &&&
               eqS country "JP")
              [scenario_ad_jp_row "同业广告" TARGET_BUSINESS_ATTR]))).
Proof.
  destruct (summary_spec [scenario_ad_jp_row "同业广告" TARGET_BUSINESS_ATTR]
              TARGET_PERIOD TARGET_BUSINESS_ATTR DEPARTMENTS_COUNTRY
              valid_departments_country) as (s & E & _ & Hd).
  exists s. split; [exact E|].
  assert (H : reports s "JP" ad_dept_revenue (Float (pence 0))).
  { apply (Hd "JP"); [cbn; tauto|]. vm_compute.
    repeat first [left; reflexivity | right]. }
  split; [exact H|]. split; [reflexivity|].
  intros H'. pose proof (reports_unique _ _ _ _ _ H H') as Ev.
  vm_compute in Ev. discriminate Ev.
Qed.

(** C3, amended. For a country, ad_dept_revenue is the sum of the amounts of
    the rows of the target period whose department is the country: the same
    value as country_revenue. A transaction of department AD of the target
    period, to whatever country it is attributed, adds its amount to the
    ad_dept_revenue of the global region, and leaves the ad_dept_revenue and
    the country_revenue of every country as they are. *)
Theorem C3_country_ad_dept_revenue_is_department_revenue
    (df : DataFrame) (p : Z) (a : string) (depts : list string) (d : string) :
  List.Forall valid_code depts -> In d depts ->
  let R := total_pence (List.filter (eqZ period p &&& eqS department d) df) in
  let A := total_pence (List.filter (eqZ period p &&& eqS department "AD") df) in
  (exists s,
     calculate_all_metrics df p a depts ALL_METRIC_ORDER = Some s /\
     reports s d ad_dept_revenue (Float (pence R)) /\
     reports s d country_revenue (Float (pence R)) /\
     reports s Global ad_dept_revenue (Float (pence A))) /\
  (forall t, department t = "AD" -> period t = p -> d <> "AD" ->
   exists s',
     calculate_all_metrics (t :: df) p a depts ALL_METRIC_ORDER = Some s' /\
     reports s' Global ad_dept_revenue (Float (pence (amount t + A))) /\
     reports s' d ad_dept_revenue (Float (pence R)) /\
     reports s' d country_revenue (Float (pence R))).
Proof.
  intros Hvalid Hin R A. split.
  - destruct (summary_spec df p a depts Hvalid) as (s & E & Hg & Hd).
    exists s. split; [exact E|]. split; [|split].
    + apply (Hd d _ _ Hin); pick_entry.
    + apply (Hd d _ _ Hin); pick_entry.
    + apply Hg; pick_entry.
  - intros t Hdep Hper Hne.
    destruct (summary_spec (t :: df) p a depts Hvalid) as (s' & E & Hg & Hd).
    exists s'. split; [exact E|].
    assert (EA : total_pence
                   (List.filter (eqZ period p &&& eqS department "AD") (t :: df))
                 = amount t + A).
    { rewrite total_pence_cons. unfold mand, eqZ, eqS.
      rewrite Hdep, Hper, Z.eqb_refl. reflexivity. }
    assert (ER : total_pence
                   (List.filter (eqZ period p &&& eqS department d) (t :: df))
                 = R).
    { rewrite total_pence_cons. unfold mand, eqZ, eqS.
      rewrite Hdep, Hper, Z.eqb_refl.
      assert (En : String.eqb "AD" d = false)
        by (apply String.eqb_neq; congruence).
      rewrite En. reflexivity. }
    split; [|split].
    + rewrite <- EA. apply Hg; pick_entry.
    + rewrite <- ER. apply (Hd d _ _ Hin); pick_entry.
    + rewrite <- ER. apply (Hd d _ _ Hin); pick_entry.
Qed.

(** C3, amended, at the AD attribution scenario. *)
Lemma C3_country_ad_dept_revenue_witness :
  List.Forall valid_code DEPARTMENTS_COUNTRY /\ In "JP" DEPARTMENTS_COUNTRY /\
  exists s',
    calculate_all_metrics
      [scenario_ad_jp_row "同业广告" TARGET_BUSINESS_ATTR]
      TARGET_PERIOD TARGET_BUSINESS_ATTR DEPARTMENTS_COUNTRY ALL_METRIC_ORDER
      = Some s' /\
    reports s' Global ad_dept_revenue (Float (pence (5000 + 0))) /\
    reports s' "JP" ad_dept_revenue (Float (pence 0)) /\
    reports s' "JP" country_revenue (Float (pence 0)).
Proof.
  assert (Hin : In "JP" DEPARTMENTS_COUNTRY) by (cbn; tauto).
  split; [exact valid_departments_country|]. split; [exact Hin|].
  destruct (C3_country_ad_dept_revenue_is_department_revenue []
              TARGET_PERIOD TARGET_BUSINESS_ATTR DEPARTMENTS_COUNTRY "JP"
              valid_departments_country Hin) as [_ H].
  apply (H (scenario_ad_jp_row "同业广告" TARGET_BUSINESS_ATTR)).
  - reflexivity.
  - reflexivity.
  - discriminate.
Defined.

(* ===================================================================== *)
(** ** Further properties of the detail selector *)
(* ===================================================================== *)

(** The rows that the selector returns are picked by a test on the row alone,
    fixed by the metric, the region, the period and the attribute. *)
Lemma detail_is_filter metric_name region p a :
  exists mask : Mask,
    forall df, get_metric_detail_data df metric_name region p a =
               List.filter mask df.
Proof.
  unfold get_metric_detail_data, revenue_filter.
  repeat match goal with
         | |- context [if ?b then _ else _] => destruct b
         end;
    first
      [ exists (fun _ => false); intros df; symmetry; apply filter_none
      | eexists; intros df; reflexivity ].
Qed.

Lemma filter_twice (m : Mask) (df : DataFrame) :
  List.filter m (List.filter m df) = List.filter m df.
Proof. apply filter_within. auto. Qed.

(** X1. The selector works row by row: the detail of two tables put one after
    the other is the detail of the first followed by the detail of the
    second, and selecting from a detail with the same choices returns it
    unchanged. *)
Theorem X1_detail_is_rowwise
    (df1 df2 : DataFrame) (metric_name region : string) (p : Z) (a : string) :
  get_metric_detail_data (df1 ++ df2)%list metric_name region p a =
    (get_metric_detail_data df1 metric_name region p a ++
     get_metric_detail_data df2 metric_name region p a)%list /\
  get_metric_detail_data
    (get_metric_detail_data df1 metric_name region p a) metric_name region p a =
  get_metric_detail_data df1 metric_name region p a.
Proof.
  destruct (detail_is_filter metric_name region p a) as (mask & H).
  rewrite !H. split; [apply List.filter_app | apply filter_twice].
Qed.

Lemma filter_mand (c t : Mask) (df : DataFrame) :
  List.filter (c &&& t) df = List.filter t (List.filter c df).
Proof.
  induction df as [|r df IH]; [reflexivity|].
  unfold mand in *. cbn [List.filter].
  destruct (c r); cbn [andb List.filter]; [|exact IH].
  destruct (t r); now rewrite IH.
Qed.

Lemma filter_mand_assoc (c u t : Mask) (df : DataFrame) :
  List.filter (c &&& (u &&& t)) df = List.filter (c &&& u &&& t) df.
Proof.
  apply List.filter_ext. intros r. unfold mand. apply andb_assoc.
Qed.

(** The detail on the left is the selection [c] narrowed by an ad type. *)
Ltac narrow_to c df :=
  lazymatch goal with
  | |- _ = List.filter ?t _ =>
      transitivity (List.filter (c &&& t) df);
      [ first [ reflexivity | rewrite <- filter_mand_assoc; reflexivity ]
      | rewrite filter_mand; reflexivity ]
  end.

(** X2. In each revenue family and for every region, the detail of the core
    metric is the detail of the plain metric narrowed to the core ad type,
    and the detail of the non-core metric is it narrowed to the non-core ad
    type. *)
Theorem X2_detail_of_core_and_noncore_narrow_the_plain_detail
    (df : DataFrame) (region : string) (p : Z) (a : string)
    (plain core noncore : string) :
  In (plain, core, noncore) revenue_families ->
  get_metric_detail_data df core region p a =
    List.filter (eqS ad_type "同业广告")
      (get_metric_detail_data df plain region p a) /\
  get_metric_detail_data df noncore region p a =
    List.filter (eqS ad_type "异业广告")
      (get_metric_detail_data df plain region p a).
Proof.
  intros H. cbn in H.
  destruct (String.eqb region "全球") eqn:E.
  - apply String.eqb_eq in E. subst region.
    destruct H as [H|[H|[H|[]]]]; injection H as <- <- <-.
    + split; narrow_to (eqZ period p &&& all_true) df.
    + split; narrow_to (eqZ period p &&& eqS department "AD") df.
    + split; narrow_to (eqZ period p &&& neS department "AD") df.
  - unfold get_metric_detail_data. rewrite E.
    destruct H as [H|[H|[H|[]]]]; injection H as <- <- <-;
      split; narrow_to (eqZ period p &&& eqS department region) df.
Qed.

(** X2 for the revenue of the AD department in the global region. *)
Lemma X2_detail_narrowing_witness :
  In ("广告部：广告收入", "广告部—同业收入", "广告部—异业收入") revenue_families /\
  get_metric_detail_data [scenario_au_row] "广告部—同业收入" "全球"
    TARGET_PERIOD TARGET_BUSINESS_ATTR =
  List.filter (eqS ad_type "同业广告")
    (get_metric_detail_data [scenario_au_row] "广告部：广告收入" "全球"
       TARGET_PERIOD TARGET_BUSINESS_ATTR).
Proof.
  assert (H : In ("广告部：广告收入", "广告部—同业收入", "广告部—异业收入")
                 revenue_families) by (right; left; reflexivity).
  split; [exact H|].
  exact (proj1 (X2_detail_of_core_and_noncore_narrow_the_plain_detail
                  [scenario_au_row] "全球" TARGET_PERIOD TARGET_BUSINESS_ATTR
                  _ _ _ H)).
Defined.

(* ===================================================================== *)
(** ** Layout of the summary and keys of the metrics *)
(* ===================================================================== *)

Lemma final_order_blocks depts :
  build_final_order depts ALL_METRIC_ORDER =
  ((ALL_METRIC_ORDER ++ global_new_metrics) ++
   flat_map (fun d => map (dept_key d) (ALL_METRIC_ORDER ++ global_new_metrics))
     depts)%list.
Proof.
  unfold build_final_order. rewrite <- app_assoc. reflexivity.
Qed.

Lemma block_name_plain n :
  In n (ALL_METRIC_ORDER ++ global_new_metrics)%list ->
  PyStr.contains "_" n = false.
Proof.
  intros H. apply name_plain. apply in_app_iff in H as [H|H];
    [exact H | apply new_metrics_in_order, H].
Qed.

(** The labels of the rows of the table that is built from a dict [dv]. *)
Lemma summary_labels depts dv :
  List.Forall valid_code depts ->
  map (fun r => (地区 r, 指标名称 r))
    (map (summary_row depts dv) (build_final_order depts ALL_METRIC_ORDER)) =
  flat_map (fun region =>
              map (pair region) (ALL_METRIC_ORDER ++ global_new_metrics))
    ("全球" :: depts).
Proof.
  intros Hvalid.
  assert (Hv : forall d, In d depts -> valid_code d)
    by (apply List.Forall_forall, Hvalid).
  rewrite final_order_blocks.
  assert (Hp : forall n, In n (ALL_METRIC_ORDER ++ global_new_metrics)%list ->
                         PyStr.contains "_" n = false)
    by exact block_name_plain.
  revert Hp. generalize (ALL_METRIC_ORDER ++ global_new_metrics)%list.
  intros names Hp.
  rewrite !map_app. cbn [flat_map]. f_equal.
  - rewrite map_map. apply map_ext_in. intros n Hn.
    rewrite (summary_row_plain depts dv n (Hp n Hn)). reflexivity.
  - assert (H : forall l, incl l depts ->
        map (fun r => (地区 r, 指标名称 r))
          (map (summary_row depts dv)
             (flat_map (fun d => map (dept_key d) names) l)) =
        flat_map (fun region => map (pair region) names) l).
    { induction l as [|d l IH]; intros Hl; [reflexivity|].
      cbn [flat_map]. rewrite !map_app. f_equal.
      - rewrite !map_map. apply map_ext_in. intros n Hn.
        rewrite (summary_row_key depts dv d n (Hl d (or_introl eq_refl))
                   (Hv d (Hl d (or_introl eq_refl))) (Hp n Hn)).
        reflexivity.
      - apply IH. intros x Hx. apply Hl. right. exact Hx. }
    apply H. intros x Hx. exact Hx.
Qed.

(** X3. The summary lists the regions in blocks: the global block first, then
    one block for each country in the order of the country list. Each block
    lists the 15 metric names in the order of [ALL_METRIC_ORDER], followed by
    the five names of [global_new_metrics] a second time. *)
Theorem X3_summary_layout
    (df : DataFrame) (p : Z) (a : string) (depts : list string) :
  List.Forall valid_code depts ->
  exists s,
    calculate_all_metrics df p a depts ALL_METRIC_ORDER = Some s /\
    map (fun r => (地区 r, 指标名称 r)) s =
    flat_map (fun region =>
                map (pair region) (ALL_METRIC_ORDER ++ global_new_metrics))
      ("全球" :: depts).
Proof.
  intros Hvalid.
  destruct (calculate_all_metrics_rows df p a depts) as (dv & E & _ & _).
  eexists. split; [exact E|]. apply summary_labels, Hvalid.
Qed.

(** X3 at the countries of the program. *)
Lemma X3_summary_layout_witness :
  List.Forall valid_code DEPARTMENTS_COUNTRY /\
  exists s,
    calculate_all_metrics [scenario_au_row] TARGET_PERIOD TARGET_BUSINESS_ATTR
      DEPARTMENTS_COUNTRY ALL_METRIC_ORDER = Some s /\
    map (fun r => (地区 r, 指标名称 r)) s =
    flat_map (fun region =>
                map (pair region) (ALL_METRIC_ORDER ++ global_new_metrics))
      ALL_REGIONS.
Proof.
  split; [exact valid_departments_country|].
  exact (X3_summary_layout [scenario_au_row] TARGET_PERIOD TARGET_BUSINESS_ATTR
           DEPARTMENTS_COUNTRY valid_departments_country).
Defined.



(** X5. The loop over the departments keeps the metrics of every department
    of the list: whatever the codes are, repeated or not, the dict of each
    department is part of the merged dict, no entry of it being replaced by
    the entry of another department. *)
Theorem X5_merged_dict_keeps_each_department
    (depts : list string) (df : DataFrame) (p : Z) (a : string) (d : string) :
  In d depts ->
  exists out m,
    all_dept_loop depts df p a ∅ = Some out /\
    calculate_single_dept_metrics d df p a = Some m /\
    m ⊆ out.
Proof.
  intros Hd.
  destruct (all_dept_loop_spec depts df p a ∅) as (out & E & _ & Hii).
  destruct (single_dept_spec d df p a) as (m & Em & Hv & Hk).
  exists out, m. split; [exact E|]. split; [exact Em|].
  apply map_subseteq_spec. intros k x Hx.
  destruct (Hk k) as (n & Hn & ->); [eauto|].
  rewrite <- (dept_closed_form_names d df p a) in Hn.
  apply in_map_iff in Hn as ([n' v] & <- & Hin). cbn [fst] in *.
  rewrite (Hv _ _ Hin) in Hx. injection Hx as <-.
  apply (Hii d _ _ Hd Hin).
Qed.

(** X5 at a list that names a department twice. *)
Lemma X5_merged_dict_witness :
  In "AU" ["AU"; "NZ"; "AU"] /\
  exists out m,
    all_dept_loop ["AU"; "NZ"; "AU"] [scenario_au_row] TARGET_PERIOD
      TARGET_BUSINESS_ATTR ∅ = Some out /\
    calculate_single_dept_metrics "AU" [scenario_au_row] TARGET_PERIOD
      TARGET_BUSINESS_ATTR = Some m /\
    m ⊆ out.
Proof.
  assert (H : In "AU" ["AU"; "NZ"; "AU"]) by (left; reflexivity).
  split; [exact H|].
  exact (X5_merged_dict_keeps_each_department ["AU"; "NZ"; "AU"]
           [scenario_au_row] TARGET_PERIOD TARGET_BUSINESS_ATTR "AU" H).
Defined.

(* ===================================================================== *)
(** ** Relations between the revenue metrics *)
(* ===================================================================== *)

(** X6. In the global block the total revenue is the sum of the revenue of
    the AD department and of the revenue of the other departments, and so are
    the core and the non-core total. *)
Theorem X6_global_total_is_sum_of_ad_dept_and_country
    (df : DataFrame) (p : Z) (a : string) (depts : list string) :
  List.Forall valid_code depts ->
  exists s,
    calculate_all_metrics df p a depts ALL_METRIC_ORDER = Some s /\
    (exists x y,
        reports s Global ad_dept_revenue (Float (pence x)) /\
        reports s Global country_revenue (Float (pence y)) /\
        reports s Global total_revenue (Float (pence (x + y)))) /\
    (exists x y,
        reports s Global ad_dept_core_revenue (Float (pence x)) /\
        reports s Global country_core_revenue (Float (pence y)) /\
        reports s Global total_core_revenue (Float (pence (x + y)))) /\
    (exists x y,
        reports s Global ad_dept_noncore_revenue (Float (pence x)) /\
        reports s Global country_noncore_revenue (Float (pence y)) /\
        reports s Global total_noncore_revenue (Float (pence (x + y)))).
Proof.
  intros Hvalid.
  destruct (summary_spec df p a depts Hvalid) as (s & E & Hg & _).
  exists s. split; [exact E|].
  split; [|split]; do 2 eexists; (split; [|split]); apply Hg; pick_entry.
Qed.

(** X6 at the single-transaction scenario. *)
Lemma X6_global_total_witness :
  List.Forall valid_code ["AU"] /\
  exists s,
    calculate_all_metrics [scenario_au_row] TARGET_PERIOD TARGET_BUSINESS_ATTR
      ["AU"] ALL_METRIC_ORDER = Some s /\
    exists x y,
      reports s Global ad_dept_revenue (Float (pence x)) /\
      reports s Global country_revenue (Float (pence y)) /\
      reports s Global total_revenue (Float (pence (x + y))).
Proof.
  split; [exact valid_au|].
  destruct (X6_global_total_is_sum_of_ad_dept_and_country [scenario_au_row]
              TARGET_PERIOD TARGET_BUSINESS_ATTR ["AU"] valid_au)
    as (s & E & H & _).
  exists s. split; [exact E | exact H].
Defined.

(** A selection sums to its core part plus its non-core part when every
    transaction has one of the two ad types. *)
Lemma total_by_ad_type (df : DataFrame) :
  (forall r, In r df -> ad_type r = "同业广告" \/ ad_type r = "异业广告") ->
  forall m : Mask,
    total_pence (List.filter m df) =
    total_pence (List.filter (m &&& eqS ad_type "同业广告") df) +
    total_pence (List.filter (m &&& eqS ad_type "异业广告") df).
Proof.
  intros Hty m. induction df as [|r df IH]; [reflexivity|].
  rewrite !total_pence_cons, IH by (intros r' Hr'; apply Hty; right; exact Hr').
  unfold mand, eqS. destruct (m r); cbn [andb]; [|lia].
  destruct (Hty r (or_introl eq_refl)) as [->| ->]; cbn; lia.
Qed.

(** X7. When every transaction has one of the two ad types, the core and the
    non-core revenue add up to the plain revenue, in each of the three revenue
    families and in the block of every region. *)
Theorem X7_core_and_noncore_add_up
    (df : DataFrame) (p : Z) (a : string) (depts : list string) :
  List.Forall valid_code depts ->
  (forall r, In r df -> ad_type r = "同业广告" \/ ad_type r = "异业广告") ->
  exists s,
    calculate_all_metrics df p a depts ALL_METRIC_ORDER = Some s /\
    forall region plain core noncore,
      In region (Global :: depts) ->
      In (plain, core, noncore) revenue_families ->
      exists c n,
        reports s region core (Float (pence c)) /\
        reports s region noncore (Float (pence n)) /\
        reports s region plain (Float (pence (c + n))).
Proof.
  intros Hvalid Hty.
  destruct (summary_spec df p a depts Hvalid) as (s & E & Hg & Hd).
  exists s. split; [exact E|].
  intros region plain core noncore Hr Hf. cbn in Hf.
  destruct Hr as [<-|Hr].
  - destruct Hf as [Hf|[Hf|[Hf|[]]]]; injection Hf as <- <- <-;
      do 2 eexists;
      (split; [apply Hg; pick_entry | split; [apply Hg; pick_entry|]]).
    + replace (_ + _ + (_ + _)) with
        (total_pence (List.filter (eqZ period p &&& eqS department "AD") df) +
         total_pence (List.filter (eqZ period p &&& neS department "AD") df));
        [apply Hg; pick_entry|].
      rewrite (total_by_ad_type df Hty (eqZ period p &&& eqS department "AD")),
        (total_by_ad_type df Hty (eqZ period p &&& neS department "AD")).
      lia.
    + rewrite <- (total_by_ad_type df Hty). apply Hg; pick_entry.
    + rewrite <- (total_by_ad_type df Hty). apply Hg; pick_entry.
  - destruct Hf as [Hf|[Hf|[Hf|[]]]]; injection Hf as <- <- <-;
      do 2 eexists;
      (split; [apply (Hd region _ _ Hr); pick_entry
              | split; [apply (Hd region _ _ Hr); pick_entry|]]).
    + rewrite <- Z.mul_add_distr_l, <- (total_by_ad_type df Hty).
      apply (Hd region _ _ Hr); pick_entry.
    + rewrite <- (total_by_ad_type df Hty). apply (Hd region _ _ Hr); pick_entry.
    + rewrite <- (total_by_ad_type df Hty). apply (Hd region _ _ Hr); pick_entry.
Qed.

(** X7 at the single-transaction scenario, for the revenue of the country
    departments in the block of AU. *)
Lemma X7_core_and_noncore_witness :
  List.Forall valid_code ["AU"] /\
  (forall r, In r [scenario_au_row] ->
             ad_type r = "同业广告" \/ ad_type r = "异业广告") /\
  exists s,
    calculate_all_metrics [scenario_au_row] TARGET_PERIOD TARGET_BUSINESS_ATTR
      ["AU"] ALL_METRIC_ORDER = Some s /\
    exists c n,
      reports s "AU" country_core_revenue (Float (pence c)) /\
      reports s "AU" country_noncore_revenue (Float (pence n)) /\
      reports s "AU" country_revenue (Float (pence (c + n))).
Proof.
  assert (Hty : forall r, In r [scenario_au_row] ->
                          ad_type r = "同业广告" \/ ad_type r = "异业广告").
  { intros r [<-|[]]. left. reflexivity. }
  split; [exact valid_au|]. split; [exact Hty|].
  destruct (X7_core_and_noncore_add_up [scenario_au_row] TARGET_PERIOD
              TARGET_BUSINESS_ATTR ["AU"] valid_au Hty) as (s & E & H).
  exists s. split; [exact E|].
  apply (H "AU" country_revenue country_core_revenue country_noncore_revenue).
  - right. left. reflexivity.
  - right. right. left. reflexivity.
Defined.

(* ===================================================================== *)
(** ** The countries and the global region *)
(* ===================================================================== *)

Lemma sum_indicator (x : string) (v : Z) (l : list string) :
  List.NoDup l ->
  fold_right Z.add 0 (map (fun d => if String.eqb x d then v else 0) l) =
  if in_dec string_dec x l then v else 0.
Proof.
  induction 1 as [|d l Hd Hnd IH]; [reflexivity|].
  cbn [map fold_right]. rewrite IH.
  destruct (String.eqb_spec x d) as [->|Hne].
  - destruct (in_dec string_dec d l) as [Hin|_]; [contradiction|].
    destruct (in_dec string_dec d (d :: l)) as [_|Hn]; [lia|].
    exfalso. apply Hn. left. reflexivity.
  - destruct (in_dec string_dec x l) as [Hin|Hn];
      destruct (in_dec string_dec x (d :: l)) as [Hin'|Hn'];
      try lia.
    + exfalso. apply Hn'. right. exact Hin.
    + destruct Hin' as [->|Hin']; [contradiction Hne; reflexivity | contradiction].
Qed.

Lemma sum_map_add (f g : string -> Z) (l : list string) :
  fold_right Z.add 0 (map (fun d => f d + g d) l) =
  fold_right Z.add 0 (map f l) + fold_right Z.add 0 (map g l).
Proof. induction l as [|d l IH]; cbn; lia. Qed.

(** The revenue of the departments other than AD is the sum of the revenues
    of the listed departments, when these are all the departments other than
    AD that occur in the period. *)
Lemma total_non_ad_by_department (p : Z) (depts : list string) (df : DataFrame) :
  List.NoDup depts -> ~ In "AD" depts ->
  (forall r, In r df -> period r = p -> department r <> "AD" ->
             In (department r) depts) ->
  total_pence (List.filter (eqZ period p &&& neS department "AD") df) =
  fold_right Z.add 0
    (map (fun d => total_pence
                     (List.filter (eqZ period p &&& eqS department d) df))
         depts).
Proof.
  intros Hnd Had. induction df as [|r df IH]; intros Hin.
  - clear. induction depts as [|d l IHl]; [reflexivity|].
    cbn in IHl |- *. rewrite <- IHl. reflexivity.
  - rewrite (map_ext _ (fun d =>
               (if String.eqb (department r) d
                then (if period r =? p then amount r else 0) else 0) +
               total_pence (List.filter (eqZ period p &&& eqS department d) df))).
    + rewrite sum_map_add, (sum_indicator _ _ _ Hnd).
      rewrite total_pence_cons, IH
        by (intros r' Hr'; apply Hin; right; exact Hr').
      f_equal.
      unfold mand, eqZ, neS.
      destruct (period r =? p) eqn:Ep; cbn [andb].
      * apply Z.eqb_eq in Ep.
        destruct (String.eqb_spec (department r) "AD") as [Ead|Hne]; cbn [negb].
        -- destruct (in_dec string_dec (department r) depts) as [Hi|_];
             [|reflexivity].
           rewrite Ead in Hi. contradiction.
        -- destruct (in_dec string_dec (department r) depts) as [_|Hn];
             [reflexivity|].
           exfalso. apply Hn. apply (Hin r (or_introl eq_refl) Ep Hne).
      * destruct (in_dec string_dec (department r) depts); reflexivity.
    + intros d. rewrite total_pence_cons. unfold mand, eqZ, eqS.
      destruct (period r =? p), (String.eqb (department r) d); reflexivity.
Qed.

(** X8. When the country list names each country once and not the AD
    department, and every transaction of the target period outside the AD
    department belongs to a listed country, the country revenue of the global
    block is the sum of the country revenues of the blocks of the
    countries. *)
Theorem X8_global_country_revenue_is_sum_over_countries
    (df : DataFrame) (p : Z) (a : string) (depts : list string) :
  List.Forall valid_code depts -> List.NoDup depts -> ~ In "AD" depts ->
  (forall r, In r df -> period r = p -> department r <> "AD" ->
             In (department r) depts) ->
  exists s (f : string -> Z),
    calculate_all_metrics df p a depts ALL_METRIC_ORDER = Some s /\
    (forall d, In d depts -> reports s d country_revenue (Float (pence (f d)))) /\
    reports s Global country_revenue
      (Float (pence (fold_right Z.add 0 (map f depts)))).
Proof.
  intros Hvalid Hnd Had Hin.
  destruct (summary_spec df p a depts Hvalid) as (s & E & Hg & Hd).
  exists s,
    (fun d => total_pence (List.filter (eqZ period p &&& eqS department d) df)).
  split; [exact E|]. split.
  - intros d Hdd. apply (Hd d _ _ Hdd); pick_entry.
  - rewrite <- (total_non_ad_by_department p depts df Hnd Had Hin).
    apply Hg; pick_entry.
Qed.

(** X8 at the countries of the program and the single transaction of AU. *)
Lemma X8_global_country_revenue_witness :
  List.Forall valid_code DEPARTMENTS_COUNTRY /\
  List.NoDup DEPARTMENTS_COUNTRY /\ ~ In "AD" DEPARTMENTS_COUNTRY /\
  exists s (f : string -> Z),
    calculate_all_metrics [scenario_au_row] TARGET_PERIOD TARGET_BUSINESS_ATTR
      DEPARTMENTS_COUNTRY ALL_METRIC_ORDER = Some s /\
    (forall d, In d DEPARTMENTS_COUNTRY ->
               reports s d country_revenue (Float (pence (f d)))) /\
    reports s Global country_revenue
      (Float (pence (fold_right Z.add 0 (map f DEPARTMENTS_COUNTRY)))).
Proof.
  assert (Hnd : List.NoDup DEPARTMENTS_COUNTRY).
  { repeat (apply List.NoDup_cons;
            [cbn; intros H; repeat (destruct H as [H|H]; [discriminate H|]);
             exact H|]).
    apply List.NoDup_nil. }
  assert (Had : ~ In "AD" DEPARTMENTS_COUNTRY).
  { cbn. intros H. repeat (destruct H as [H|H]; [discriminate H|]). exact H. }
  split; [exact valid_departments_country|]. split; [exact Hnd|].
  split; [exact Had|].
  apply (X8_global_country_revenue_is_sum_over_countries [scenario_au_row]
           TARGET_PERIOD TARGET_BUSINESS_ATTR DEPARTMENTS_COUNTRY
           valid_departments_country Hnd Had).
  intros r [<-|[]] _ _. left. reflexivity.
Defined.

(* ===================================================================== *)
(** ** Values of the summary: empty periods and signs *)
(* ===================================================================== *)

(** Every value of the summary is a closed form of the global block or of a
    department of the list, whatever the codes of the departments are. *)
Lemma summary_values df p a depts :
  exists s,
    calculate_all_metrics df p a depts ALL_METRIC_ORDER = Some s /\
    forall r, In r s ->
      (exists n v, In (n, v) (global_closed_form df p a depts) /\
                   总计金额_gbp r = v) \/
      (exists d n v, In d depts /\ In (n, v) (dept_closed_form d df p a) /\
                     总计金额_gbp r = v).
Proof.
  destruct (calculate_all_metrics_rows df p a depts) as (dv & E & Hg & Hd).
  eexists. split; [exact E|]. intros r Hr.
  apply in_map_iff in Hr as (k & <- & Hk).
  apply final_order_in in Hk as [Hk|(d & n & Hdd & Hn & ->)].
  - left. rewrite <- (global_closed_form_names df p a depts) in Hk.
    apply in_map_iff in Hk as ([n v] & <- & Hin). cbn [fst].
    exists n, v. split; [exact Hin|].
    unfold summary_row. cbn. rewrite (Hg n v Hin). reflexivity.
  - right. rewrite <- (dept_closed_form_names d df p a) in Hn.
    apply in_map_iff in Hn as ([n' v] & <- & Hin). cbn [fst].
    exists d, n', v. split; [exact Hdd|]. split; [exact Hin|].
    unfold summary_row. cbn. rewrite (Hd d n' v Hdd Hin). reflexivity.
Qed.

Lemma filter_off_period (df : DataFrame) (p : Z) (m : Mask) :
  (forall r, In r df -> period r <> p) ->
  (forall r, m r = true -> eqZ period p r = true) ->
  List.filter m df = [].
Proof.
  intros Hoff Hm. apply filter_no_match. intros r Hr.
  destruct (m r) eqn:E; [|reflexivity].
  apply Hm in E. unfold eqZ in E. apply Z.eqb_eq in E.
  exfalso. exact (Hoff r Hr E).
Qed.

(** The selector returns the rows picked by a mask that only holds in the
    target period. *)
Lemma detail_mask_in_period df metric_name region p a :
  exists mask : Mask,
    get_metric_detail_data df metric_name region p a = List.filter mask df /\
    forall r, mask r = true -> period r = p.
Proof.
  unfold get_metric_detail_data, revenue_filter.
  repeat match goal with
         | |- context [if ?b then _ else _] => destruct b
         end;
    first
      [ exists (fun _ => false); split;
        [ symmetry; apply filter_none | intros r Hr; discriminate Hr ]
      | eexists; split; [reflexivity | mask_in_period] ].
Qed.

(** X9. A table without a transaction of the target period, the empty table
    among them, gives a summary whose values are all 0, whatever the list of
    departments is, and an empty detail for every metric and region. *)
Theorem X9_no_row_in_period_gives_zero_summary_and_empty_detail
    (df : DataFrame) (p : Z) (a : string) (depts : list string) :
  (forall r, In r df -> period r <> p) ->
  (exists s,
     calculate_all_metrics df p a depts ALL_METRIC_ORDER = Some s /\
     forall r, In r s -> is_zero (总计金额_gbp r)) /\
  (forall metric_name region,
     get_metric_detail_data df metric_name region p a = []).
Proof.
  intros Hoff. split.
  - destruct (summary_values df p a depts) as (s & E & H).
    exists s. split; [exact E|]. intros r Hr.
    destruct (H r Hr) as [(n & v & Hin & ->)|(d & n & v & _ & Hin & ->)].
    + unfold global_closed_form in Hin.
      rewrite !(filter_off_period df p _ Hoff) in Hin by mask_asks_period.
      cbn [In] in Hin.
      repeat (destruct Hin as [Hin|Hin]; [injection Hin as _ <-; reflexivity|]).
      contradiction.
    + unfold dept_closed_form in Hin.
      rewrite !(filter_off_period df p _ Hoff) in Hin by mask_asks_period.
      cbn [In] in Hin.
      repeat (destruct Hin as [Hin|Hin]; [injection Hin as _ <-; reflexivity|]).
      contradiction.
  - intros metric_name region.
    destruct (detail_mask_in_period df metric_name region p a) as (mask & -> & Hm).
    apply filter_no_match. intros r Hr.
    destruct (mask r) eqn:E; [|reflexivity].
    exfalso. exact (Hoff r Hr (Hm r E)).
Qed.

(** X9 at a table that holds one transaction of another period. *)
Lemma X9_no_row_in_period_witness :
  (forall r, In r [scenario_au_row] -> period r <> 202510) /\
  (exists s,
     calculate_all_metrics [scenario_au_row] 202510 TARGET_BUSINESS_ATTR
       DEPARTMENTS_COUNTRY ALL_METRIC_ORDER = Some s /\
     forall r, In r s -> is_zero (总计金额_gbp r)) /\
  get_metric_detail_data [scenario_au_row] total_revenue "AU" 202510
    TARGET_BUSINESS_ATTR = [].
Proof.
  assert (H : forall r, In r [scenario_au_row] -> period r <> 202510).
  { intros r [<-|[]]. discriminate. }
  split; [exact H|].
  destruct (X9_no_row_in_period_gives_zero_summary_and_empty_detail
              [scenario_au_row] 202510 TARGET_BUSINESS_ATTR DEPARTMENTS_COUNTRY H)
    as [Hs Hd].
  split; [exact Hs | apply Hd].
Defined.

Lemma total_pence_nonneg (df : DataFrame) :
  (forall r, In r df -> 0 <= amount r) ->
  forall m : Mask, 0 <= total_pence (List.filter m df).
Proof.
  intros H m. induction df as [|r df IH]; [cbn; lia|].
  rewrite total_pence_cons.
  assert (0 <= total_pence (List.filter m df))
    by (apply IH; intros r' Hr'; apply H; right; exact Hr').
  pose proof (H r (or_introl eq_refl)).
  destruct (m r); lia.
Qed.

Lemma round_half_even_nonneg q : (0 <= q)%Q -> 0 <= round_half_even q.
Proof.
  intros H. unfold round_half_even.
  assert (Hf : 0 <= Qfloor q).
  { change 0 with (Qfloor 0). apply Qfloor_resp_le, H. }
  destruct (Qcompare _ _); [destruct (Z.even _)| |]; lia.
Qed.

Lemma quotient_metric_nonneg z n :
  0 <= z -> num_nonneg (quotient_metric (pence z) n).
Proof.
  intros Hz. unfold quotient_metric.
  destruct (0 <? n) eqn:En; [|cbn; lia].
  apply Z.ltb_lt in En.
  destruct (Qnum _ =? 0); [cbn; lia|].
  cbn [num_nonneg round2 pence inject_Z Qnum].
  apply round_half_even_nonneg.
  apply Qle_shift_div_l.
  - unfold Qlt, inject_Z. cbn. lia.
  - unfold Qle, Qmult, inject_Z. cbn. lia.
Qed.

Ltac name_totals Ht :=
  repeat match goal with
         | |- context [total_pence (List.filter ?m ?df)] =>
             let z := fresh "z" in
             pose proof (Ht m);
             set (z := total_pence (List.filter m df)) in *;
             clearbody z
         end.

Ltac name_counts :=
  repeat match goal with
         | |- context [nunique ?rows] =>
             let c := fresh "c" in
             pose proof (nunique_nonneg rows);
             set (c := nunique rows) in *;
             clearbody c
         end.

Ltac entry_nonneg Ht :=
  name_totals Ht; name_counts;
  first [ apply quotient_metric_nonneg; lia
        | cbn [num_nonneg pence inject_Z Qnum]; lia ].

(** X10. When no amount is negative, no value of the summary is: revenues,
    headcounts and productivity quotients are all 0 or more, whatever the list
    of departments is. *)
Theorem X10_summary_values_are_not_negative
    (df : DataFrame) (p : Z) (a : string) (depts : list string) :
  (forall r, In r df -> 0 <= amount r) ->
  exists s,
    calculate_all_metrics df p a depts ALL_METRIC_ORDER = Some s /\
    forall r, In r s -> num_nonneg (总计金额_gbp r).
Proof.
  intros Hpos. pose proof (total_pence_nonneg df Hpos) as Ht.
  destruct (summary_values df p a depts) as (s & E & H).
  exists s. split; [exact E|]. intros r Hr.
  destruct (H r Hr) as [(n & v & Hin & ->)|(d & n & v & _ & Hin & ->)].
  - unfold global_closed_form in Hin. cbn [In] in Hin.
    repeat (destruct Hin as [Hin|Hin];
            [injection Hin as _ <-; entry_nonneg Ht|]).
    contradiction.
  - unfold dept_closed_form in Hin. cbn [In] in Hin.
    repeat (destruct Hin as [Hin|Hin];
            [injection Hin as _ <-; entry_nonneg Ht|]).
    contradiction.
Qed.

(** X10 at the single-transaction scenario. *)
Lemma X10_summary_values_witness :
  (forall r, In r [scenario_au_row] -> 0 <= amount r) /\
  exists s,
    calculate_all_metrics [scenario_au_row] TARGET_PERIOD TARGET_BUSINESS_ATTR
      DEPARTMENTS_COUNTRY ALL_METRIC_ORDER = Some s /\
    forall r, In r s -> num_nonneg (总计金额_gbp r).
Proof.
  assert (H : forall r, In r [scenario_au_row] -> 0 <= amount r).
  { intros r [<-|[]]. cbn. lia. }
  split; [exact H|].
  exact (X10_summary_values_are_not_negative [scenario_au_row] TARGET_PERIOD
           TARGET_BUSINESS_ATTR DEPARTMENTS_COUNTRY H).
Defined.

(** X11 at NZ, for the table that holds the single transaction of AU. *)
Lemma country_without_rows_witness :
  List.Forall valid_code DEPARTMENTS_COUNTRY /\ In "NZ" DEPARTMENTS_COUNTRY /\
  exists s,
    calculate_all_metrics [scenario_au_row] TARGET_PERIOD TARGET_BUSINESS_ATTR
      DEPARTMENTS_COUNTRY ALL_METRIC_ORDER = Some s /\
    forall n, In n ALL_METRIC_ORDER ->
              exists v, reports s "NZ" n v /\ is_zero v.
Proof.
  assert (Hin : In "NZ" DEPARTMENTS_COUNTRY) by (cbn; tauto).
  split; [exact valid_departments_country|]. split; [exact Hin|].
  apply (country_without_rows_reports_zero [scenario_au_row] TARGET_PERIOD
           TARGET_BUSINESS_ATTR DEPARTMENTS_COUNTRY "NZ"
           valid_departments_country Hin).
  intros r [<-|[]] _. split.
  - discriminate.
  - intros [H _]. discriminate H.
Defined.

(* ===================================================================== *)
(** ** The number format of the displayed table *)
(* ===================================================================== *)

Lemma summary_names_in_order df p a depts :
  List.Forall valid_code depts ->
  exists s,
    calculate_all_metrics df p a depts ALL_METRIC_ORDER = Some s /\
    forall r, In r s -> In (指标名称 r) ALL_METRIC_ORDER.
Proof.
  intros Hvalid.
  destruct (calculate_all_metrics_rows df p a depts) as (dv & E & _ & _).
  eexists. split; [exact E|]. intros r Hr.
  pose proof (summary_labels depts dv Hvalid) as Hl.
  assert (Hp : In (地区 r, 指标名称 r)
                 (map (fun r => (地区 r, 指标名称 r))
                    (map (summary_row depts dv)
                       (build_final_order depts ALL_METRIC_ORDER))))
    by (apply (in_map (fun r => (地区 r, 指标名称 r))), Hr).
  rewrite Hl in Hp. apply in_flat_map in Hp as (region & _ & Hp).
  apply in_map_iff in Hp as (n & Hn & Hin). injection Hn as _ <-.
  apply in_app_iff in Hin as [Hin|Hin];
    [exact Hin | apply new_metrics_in_order, Hin].
Qed.

Lemma filtered_df_in s region r : In r (filtered_df s region) -> In r s.
Proof.
  unfold filtered_df. intros H.
  destruct (String.eqb region "全球"); apply filter_In in H as [H _]; exact H.
Qed.

(** X12. In the table displayed for any region, every number is formatted
    with two decimals, the headcounts too: the formatter shows a whole number
    without decimals only when the text 'BD人数' is itself one of the metric
    names of the table, and no metric name of the summary is that text. *)
Theorem X12_numbers_are_shown_with_two_decimals
    (df : DataFrame) (p : Z) (a : string) (depts : list string) :
  List.Forall valid_code depts ->
  exists s,
    calculate_all_metrics df p a depts ALL_METRIC_ORDER = Some s /\
    forall selected_region v,
      intelligent_formatter (display_names s selected_region) (Number v) =
      Other (format_2f v).
Proof.
  intros Hvalid.
  destruct (summary_names_in_order df p a depts Hvalid) as (s & E & Hn).
  exists s. split; [exact E|]. intros region v.
  unfold intelligent_formatter.
  rewrite (mem_not_In "BD人数" (display_names s region)), andb_false_r;
    [reflexivity|].
  intros H. unfold display_names in H.
  apply in_map_iff in H as (r & Hname & Hr).
  apply filtered_df_in, Hn in Hr. rewrite Hname in Hr.
  cbn in Hr. repeat (destruct Hr as [Hr|Hr]; [discriminate Hr|]). exact Hr.
Qed.

(** X12 at the single-transaction scenario: the one salesperson of AU is
    shown as 1.00. *)
Lemma X12_numbers_witness :
  List.Forall valid_code DEPARTMENTS_COUNTRY /\
  exists s,
    calculate_all_metrics [scenario_au_row] TARGET_PERIOD TARGET_BUSINESS_ATTR
      DEPARTMENTS_COUNTRY ALL_METRIC_ORDER = Some s /\
    intelligent_formatter (display_names s "AU") (Number (Int 1)) =
    Other "1.00".
Proof.
  split; [exact valid_departments_country|].
  destruct (X12_numbers_are_shown_with_two_decimals [scenario_au_row]
              TARGET_PERIOD TARGET_BUSINESS_ATTR DEPARTMENTS_COUNTRY
              valid_departments_country) as (s & E & H).
  exists s. split; [exact E|]. exact (H "AU" (Int 1)).
Defined.

(* ===================================================================== *)
(** ** Headcounts and their detail rows *)
(* ===================================================================== *)

Lemma mem_ext x l l' :
  (forall y, In y l <-> In y l') -> PyStr.mem x l = PyStr.mem x l'.
Proof.
  intros H. destruct (PyStr.mem x l') eqn:E.
  - apply mem_In. apply H. apply mem_In, E.
  - apply mem_not_In. intros Hin. apply H in Hin. apply mem_In in Hin.
    congruence.
Qed.

(** X13. The detail rows of a headcount carry the reported number of distinct
    salespersons: for ad_dept_bd_count in the global block and in the block of
    every country, for country_bd_count in the block of every country, and
    for country_bd_count in the global block when the country list of the
    engine holds the same countries as [DEPARTMENTS_COUNTRY], which the
    selector reads. *)
Theorem X13_headcount_detail_reconciles
    (df : DataFrame) (p : Z) (a : string) (depts : list string) :
  List.Forall valid_code depts ->
  exists s,
    calculate_all_metrics df p a depts ALL_METRIC_ORDER = Some s /\
    (forall region, In region (Global :: depts) ->
       reports s region ad_dept_bd_count
         (Int (nunique (get_metric_detail_data df ad_dept_bd_count region p a)))) /\
    (forall d, In d depts ->
       reports s d country_bd_count
         (Int (nunique (get_metric_detail_data df country_bd_count d p a)))) /\
    ((forall x, In x depts <-> In x DEPARTMENTS_COUNTRY) ->
     reports s Global country_bd_count
       (Int (nunique (get_metric_detail_data df country_bd_count Global p a)))).
Proof.
  intros Hvalid.
  assert (Hv : forall d, In d depts -> valid_code d)
    by (apply List.Forall_forall, Hvalid).
  destruct (summary_spec df p a depts Hvalid) as (s & E & Hg & Hd).
  exists s. split; [exact E|]. split; [|split].
  - intros region [<-|Hin].
    + apply Hg; pick_entry.
    + destruct (Hv region Hin) as [_ Hne]. apply String.eqb_neq in Hne.
      unfold get_metric_detail_data. rewrite Hne.
      apply (Hd region _ _ Hin); pick_entry.
  - intros d Hin. destruct (Hv d Hin) as [_ Hne]. apply String.eqb_neq in Hne.
    unfold get_metric_detail_data. rewrite Hne.
    apply (Hd d _ _ Hin); pick_entry.
  - intros Hsame.
    change (get_metric_detail_data df country_bd_count Global p a) with
      (List.filter (eqZ period p &&& isin department DEPARTMENTS_COUNTRY &&&
                    eqS business_attribute a) df).
    rewrite (List.filter_ext
               (eqZ period p &&& isin department DEPARTMENTS_COUNTRY &&&
                eqS business_attribute a)
               (eqZ period p &&& isin department depts &&&
                eqS business_attribute a)).
    + apply Hg; pick_entry.
    + intros r. unfold mand, isin.
      rewrite (mem_ext (department r) DEPARTMENTS_COUNTRY depts);
        [reflexivity|].
      intros y. symmetry. apply Hsame.
Qed.

(** X13 at the single-transaction scenario and the countries of the
    program. *)
Lemma X13_headcount_detail_witness :
  List.Forall valid_code DEPARTMENTS_COUNTRY /\
  exists s,
    calculate_all_metrics [scenario_au_row] TARGET_PERIOD TARGET_BUSINESS_ATTR
      DEPARTMENTS_COUNTRY ALL_METRIC_ORDER = Some s /\
    reports s Global country_bd_count (Int 1) /\
    reports s "AU" country_bd_count (Int 1).
Proof.
  split; [exact valid_departments_country|].
  destruct (X13_headcount_detail_reconciles [scenario_au_row] TARGET_PERIOD
              TARGET_BUSINESS_ATTR DEPARTMENTS_COUNTRY valid_departments_country)
    as (s & E & _ & Hc & Hg).
  exists s. split; [exact E|]. split.
  - apply Hg. intros x. reflexivity.
  - apply (Hc "AU"). left. reflexivity.
Defined.

(** The set of the salespersons of some rows. *)
Lemma nunique_size (rows : DataFrame) :
  nunique rows =
  Z.of_nat (size (list_to_set (map salesperson_id rows) : gset Z)).
Proof.
  unfold nunique. f_equal.
  rewrite <- (size_list_to_set (C := gset Z)
                (nodup Z.eq_dec (map salesperson_id rows))).
  - f_equal. apply set_eq. intros x.
    rewrite !elem_of_list_to_set, !list_elem_of_In. apply nodup_In.
  - apply NoDup_ListNoDup, NoDup_nodup.
Qed.

Lemma ids_of_union (m1 m2 : Mask) (df : DataFrame) :
  (list_to_set (map salesperson_id (List.filter (m1 ||| m2) df)) : gset Z) =
  list_to_set (map salesperson_id (List.filter m1 df)) ∪
  list_to_set (map salesperson_id (List.filter m2 df)).
Proof.
  apply set_eq. intros x.
  rewrite elem_of_union, !elem_of_list_to_set, !list_elem_of_In, !in_map_iff.
  unfold mor. split.
  - intros (r & <- & Hr). apply filter_In in Hr as [Hin Hm].
    apply orb_true_iff in Hm as [Hm|Hm]; [left|right];
      exists r; (split; [reflexivity | apply filter_In; auto]).
  - intros [(r & <- & Hr)|(r & <- & Hr)]; apply filter_In in Hr as [Hin Hm];
      exists r; (split; [reflexivity|]); apply filter_In;
      (split; [exact Hin|]); rewrite Hm; [reflexivity | apply orb_true_r].
Qed.

(** X14. In the global block total_bd_count is the sum of two counts, while
    its detail rows are the rows of either population: they never carry more
    distinct salespersons than the reported number, and carry exactly that
    number when no salesperson of a detail row of ad_dept_bd_count is the
    salesperson of a detail row of country_bd_count. *)
Theorem X14_global_total_bd_count_bounds_its_detail
    (df : DataFrame) (p : Z) (a : string) (depts : list string) :
  List.Forall valid_code depts ->
  (forall x, In x depts <-> In x DEPARTMENTS_COUNTRY) ->
  exists s t,
    calculate_all_metrics df p a depts ALL_METRIC_ORDER = Some s /\
    reports s Global total_bd_count (Int t) /\
    nunique (get_metric_detail_data df total_bd_count Global p a) <= t /\
    ((forall r1 r2,
         In r1 (get_metric_detail_data df ad_dept_bd_count Global p a) ->
         In r2 (get_metric_detail_data df country_bd_count Global p a) ->
         salesperson_id r1 <> salesperson_id r2) ->
     nunique (get_metric_detail_data df total_bd_count Global p a) = t).
Proof.
  intros Hvalid Hsame.
  destruct (summary_spec df p a depts Hvalid) as (s & E & Hg & _).
  exists s. eexists. split; [exact E|]. split; [apply Hg; pick_entry|].
  set (ad := eqZ period p &&& eqS department "AD").
  set (co := eqZ period p &&& isin department DEPARTMENTS_COUNTRY &&&
             eqS business_attribute a).
  assert (Eco : List.filter
                  (eqZ period p &&& isin department depts &&&
                   eqS business_attribute a) df = List.filter co df).
  { apply List.filter_ext. intros r. unfold co, mand, isin.
    rewrite (mem_ext (department r) depts DEPARTMENTS_COUNTRY Hsame).
    reflexivity. }
  rewrite Eco.
  change (get_metric_detail_data df total_bd_count Global p a)
    with (List.filter (ad ||| co) df).
  change (get_metric_detail_data df ad_dept_bd_count Global p a)
    with (List.filter ad df).
  change (get_metric_detail_data df country_bd_count Global p a)
    with (List.filter co df).
  rewrite !nunique_size, ids_of_union.
  set (A := list_to_set (map salesperson_id (List.filter ad df)) : gset Z).
  set (C := list_to_set (map salesperson_id (List.filter co df)) : gset Z).
  split.
  - rewrite (union_comm_L A C), size_union_alt.
    pose proof (subseteq_size (A ∖ C) A) as Hle.
    assert (Hsub : A ∖ C ⊆ A).
    { intros x Hx. apply elem_of_difference in Hx as [Hx _]. exact Hx. }
    specialize (Hle Hsub). lia.
  - intros Hdisj. rewrite size_union; [lia|].
    intros x HA HC. unfold A, C in HA, HC.
    rewrite elem_of_list_to_set, list_elem_of_In, in_map_iff in HA, HC.
    destruct HA as (r1 & E1 & H1). destruct HC as (r2 & E2 & H2).
    apply (Hdisj r1 r2 H1 H2). congruence.
Qed.

(** X14 at the single-transaction scenario and the countries of the
    program. *)
Lemma X14_global_total_bd_count_witness :
  List.Forall valid_code DEPARTMENTS_COUNTRY /\
  exists s t,
    calculate_all_metrics [scenario_au_row] TARGET_PERIOD TARGET_BUSINESS_ATTR
      DEPARTMENTS_COUNTRY ALL_METRIC_ORDER = Some s /\
    reports s Global total_bd_count (Int t) /\
    nunique (get_metric_detail_data [scenario_au_row] total_bd_count Global
               TARGET_PERIOD TARGET_BUSINESS_ATTR) <= t.
Proof.
  split; [exact valid_departments_country|].
  destruct (X14_global_total_bd_count_bounds_its_detail [scenario_au_row]
              TARGET_PERIOD TARGET_BUSINESS_ATTR DEPARTMENTS_COUNTRY
              valid_departments_country (fun x => iff_refl _))
    as (s & t & E & Hr & Hle & _).
  exists s, t. split; [exact E|]. split; [exact Hr | exact Hle].
Defined.

(** X15. The detail of total_bd_count holds the rows of two selections. In
    the global region they are the details of ad_dept_bd_count and of
    country_bd_count. For a country they are the detail of ad_dept_bd_count
    and the detail of country_revenue, which holds every row of the
    department in the period, with the target business attribute or
    without. *)
Theorem X15_total_bd_count_detail_is_a_union
    (df : DataFrame) (p : Z) (a : string) (r : Row) :
  (In r (get_metric_detail_data df total_bd_count Global p a) <->
   In r (get_metric_detail_data df ad_dept_bd_count Global p a) \/
   In r (get_metric_detail_data df country_bd_count Global p a)) /\
  (forall region, region <> Global ->
   (In r (get_metric_detail_data df total_bd_count region p a) <->
    In r (get_metric_detail_data df ad_dept_bd_count region p a) \/
    In r (get_metric_detail_data df country_revenue region p a))).
Proof.
  assert (Hor : forall m1 m2 : Mask,
             In r (List.filter (m1 ||| m2) df) <->
             In r (List.filter m1 df) \/ In r (List.filter m2 df)).
  { intros m1 m2. rewrite !filter_In. unfold mor. rewrite orb_true_iff. tauto. }
  split.
  - apply Hor.
  - intros region Hne. apply String.eqb_neq in Hne.
    unfold get_metric_detail_data. rewrite Hne. apply Hor.
Qed.

(* ===================================================================== *)
(** ** Precision of the productivity quotients *)
(* ===================================================================== *)

(** Rounding moves a number by a half at most. *)
Lemma round_half_even_error q :
  Qle (Qabs (Qminus (inject_Z (round_half_even q)) q)) (1 # 2).
Proof.
  apply Qabs_Qle_condition.
  pose proof (Qfloor_le q) as Hlo. pose proof (Qlt_floor q) as Hhi.
  unfold round_half_even.
  set (f := Qfloor q) in *.
  destruct (Qcompare (Qminus q (inject_Z f)) (1 # 2)) eqn:Ec.
  - apply Qeq_alt in Ec.
    destruct (Z.even f); destruct q as [nq dq];
      unfold Qeq, Qle, Qlt, Qminus, Qplus, Qopp, inject_Z in *; cbn in *;
      rewrite ?Pos.mul_1_r, ?Z.mul_1_r in *; split; lia.
  - apply Qlt_alt in Ec.
    destruct q as [nq dq];
      unfold Qeq, Qle, Qlt, Qminus, Qplus, Qopp, inject_Z in *; cbn in *;
      rewrite ?Pos.mul_1_r, ?Z.mul_1_r in *; split; lia.
  - apply Qgt_alt in Ec.
    destruct q as [nq dq];
      unfold Qeq, Qle, Qlt, Qminus, Qplus, Qopp, inject_Z in *; cbn in *;
      rewrite ?Pos.mul_1_r, ?Z.mul_1_r in *; split; lia.
Qed.

Lemma quotient_metric_close z n :
  close_quotient (quotient_metric (pence z) n) z n.
Proof.
  unfold quotient_metric.
  destruct (0 <? n) eqn:En; [|apply Z.ltb_ge in En; cbn; auto].
  apply Z.ltb_lt in En.
  destruct n as [|pn|pn]; try lia.
  destruct (Qnum _ =? 0) eqn:E0.
  - apply Z.eqb_eq in E0. cbn in E0. cbn. split; [reflexivity|]. right. lia.
  - cbn [close_quotient]. eexists. split; [reflexivity|]. split; [lia|].
    pose proof (round_half_even_error (Qdiv (pence z) (inject_Z (Z.pos pn)))) as H.
    apply Qabs_Qle_condition in H.
    set (r := round_half_even _) in *. clearbody r.
    unfold Qle, Qminus, Qplus, Qopp, Qdiv, Qmult, Qinv, pence, inject_Z in H.
    cbn in H. rewrite ?Pos.mul_1_r, ?Z.mul_1_r in H. lia.
Qed.

(** X16. In the block of every region each productivity metric is the
    quotient of a reported revenue by a reported headcount: the total revenue
    by total_bd_count, the ad_dept_revenue by ad_dept_bd_count and the
    country_revenue by country_bd_count. It is 0 when the headcount or the
    revenue is 0; otherwise it is a whole number of pence that, multiplied by
    the headcount, differs from the revenue by at most half a penny per
    head. *)
Theorem X16_productivity_is_revenue_per_head
    (df : DataFrame) (p : Z) (a : string) (depts : list string) :
  List.Forall valid_code depts ->
  exists s,
    calculate_all_metrics df p a depts ALL_METRIC_ORDER = Some s /\
    forall region, In region (Global :: depts) ->
      (exists x n v,
          reports s region total_revenue (Float (pence x)) /\
          reports s region total_bd_count (Int n) /\
          reports s region global_bd_avg_revenue v /\
          close_quotient v x n) /\
      (exists x n v,
          reports s region ad_dept_revenue (Float (pence x)) /\
          reports s region ad_dept_bd_count (Int n) /\
          reports s region ad_dept_bd_avg_revenue v /\
          close_quotient v x n) /\
      (exists x n v,
          reports s region country_revenue (Float (pence x)) /\
          reports s region country_bd_count (Int n) /\
          reports s region country_bd_avg_revenue v /\
          close_quotient v x n).
Proof.
  intros Hvalid.
  destruct (summary_spec df p a depts Hvalid) as (s & E & Hg & Hd).
  exists s. split; [exact E|]. intros region [<-|Hin].
  - split; [|split]; do 3 eexists;
      (split; [apply Hg; pick_entry
              | split; [apply Hg; pick_entry
                       | split; [apply Hg; pick_entry
                                | apply quotient_metric_close]]]).
  - split; [|split]; do 3 eexists;
      (split; [apply (Hd region _ _ Hin); pick_entry
              | split; [apply (Hd region _ _ Hin); pick_entry
                       | split; [apply (Hd region _ _ Hin); pick_entry
                                | apply quotient_metric_close]]]).
Qed.

(** X16 at the single-transaction scenario: 100.00 per country salesperson
    of AU. *)
Lemma X16_productivity_witness :
  List.Forall valid_code ["AU"] /\
  exists s,
    calculate_all_metrics [scenario_au_row] TARGET_PERIOD TARGET_BUSINESS_ATTR
      ["AU"] ALL_METRIC_ORDER = Some s /\
    exists x n v,
      reports s "AU" country_revenue (Float (pence x)) /\
      reports s "AU" country_bd_count (Int n) /\
      reports s "AU" country_bd_avg_revenue v /\
      close_quotient v x n.
Proof.
  split; [exact valid_au|].
  destruct (X16_productivity_is_revenue_per_head [scenario_au_row]
              TARGET_PERIOD TARGET_BUSINESS_ATTR ["AU"] valid_au)
    as (s & E & H).
  exists s. split; [exact E|].
  exact (proj2 (proj2 (H "AU" (or_intror (or_introl eq_refl))))).
Defined.

(* ===================================================================== *)
(** ** The choices of the page *)
(* ===================================================================== *)

Ltac eval_conditions :=
  repeat match goal with
         | |- context [PyStr.mem ?x ?l] =>
             let b := eval vm_compute in (PyStr.mem x l) in
             change (PyStr.mem x l) with b
         | |- context [PyStr.contains ?x ?l] =>
             let b := eval vm_compute in (PyStr.contains x l) in
             change (PyStr.contains x l) with b
         | |- context [String.eqb ?x ?y] =>
             let b := eval vm_compute in (String.eqb x y) in
             change (String.eqb x y) with b
         end;
  cbv beta iota zeta.

Ltac run_masks :=
  unfold mand, mor, eqZ, eqS, neS, isin, all_true;
  cbn [period department country ad_type amount business_attribute
       salesperson_id List.filter];
  rewrite ?Z.eqb_refl, ?String.eqb_refl; reflexivity.

Ltac select_row r :=
  exists r; unfold get_metric_detail_data, revenue_filter;
  eval_conditions; run_masks.

Ltac select_row_of E r :=
  exists r; unfold get_metric_detail_data, revenue_filter; rewrite E;
  eval_conditions; run_masks.

(** X17. Every metric name that the page offers has a selection for every
    region: for each of the 15 names of [ALL_METRIC_ORDER] and each region
    there is a transaction that the selector returns, so the empty table is
    then the answer for a table without matching rows and not the fallback for
    an unknown choice. *)
Theorem X17_every_offered_metric_selects_some_row
    (metric_name region : string) (p : Z) (a : string) :
  In metric_name ALL_METRIC_ORDER ->
  exists r, get_metric_detail_data [r] metric_name region p a = [r].
Proof.
  intros H. cbn in H.
  destruct (String.eqb region "全球") eqn:E.
  - apply String.eqb_eq in E. subst region.
    repeat (destruct H as [H|H];
      [subst metric_name;
       first [ select_row (mkRow p "AD" "AU" "同业广告" 0 a 0)
             | select_row (mkRow p "AD" "AU" "异业广告" 0 a 0)
             | select_row (mkRow p "AU" "AU" "同业广告" 0 a 0)
             | select_row (mkRow p "AU" "AU" "异业广告" 0 a 0) ] |]).
    contradiction.
  - repeat (destruct H as [H|H];
      [subst metric_name;
       first [ select_row_of E (mkRow p region region "同业广告" 0 a 0)
             | select_row_of E (mkRow p region region "异业广告" 0 a 0)
             | select_row_of E (mkRow p "AD" region "异业广告" 0 a 0) ] |]).
    contradiction.
Qed.

(** X17 at the non-core revenue of the AD department for JP. *)
Lemma X17_offered_metric_witness :
  In ad_dept_noncore_revenue ALL_METRIC_ORDER /\
  exists r,
    get_metric_detail_data [r] ad_dept_noncore_revenue "JP" TARGET_PERIOD
      TARGET_BUSINESS_ATTR = [r].
Proof.
  assert (H : In ad_dept_noncore_revenue ALL_METRIC_ORDER) by (cbn; tauto).
  split; [exact H|].
  exact (X17_every_offered_metric_selects_some_row ad_dept_noncore_revenue "JP"
           TARGET_PERIOD TARGET_BUSINESS_ATTR H).
Defined.

(* ===================================================================== *)
(** ** Departments outside the country list *)
(* ===================================================================== *)

Lemma filter_cons_skip (m : Mask) (t : Row) (df : DataFrame) :
  m t = false -> List.filter m (t :: df) = List.filter m df.
Proof. intros H. cbn [List.filter]. rewrite H. reflexivity. Qed.

(** What the summary reports for a region is an entry of the closed form
    that it reports for it. *)
Lemma reports_in_closed_form s region n v (cf : list (string * num)) :
  map fst cf = ALL_METRIC_ORDER ->
  (forall r, In r s -> In (指标名称 r) ALL_METRIC_ORDER) ->
  (forall n' v', In (n', v') cf -> reports s region n' v') ->
  reports s region n v -> In (n, v) cf.
Proof.
  intros Hnames Hs Hcf Hrep.
  assert (Hn : In n ALL_METRIC_ORDER).
  { destruct Hrep as [Hne _].
    destruct (summary_get s region n) as [|w l] eqn:Eg; [contradiction|].
    assert (Hw : In w (summary_get s region n)) by (rewrite Eg; left; reflexivity).
    apply summary_get_in in Hw as (r & Hr & _ & <- & _). apply Hs, Hr. }
  rewrite <- Hnames in Hn. apply in_map_iff in Hn as ([n' v'] & <- & Hin).
  cbn [fst] in *.
  rewrite (reports_unique _ _ _ _ _ Hrep (Hcf _ _ Hin)). exact Hin.
Qed.

(** X18. A transaction of the target period whose department is neither AD
    nor a country of the list, such as OTHER, adds its amount to the country
    revenue of the global block. It changes none of the three headcounts of
    the global block, and nothing in the block of any country. *)
Theorem X18_unlisted_department_counts_only_in_global_revenue
    (df : DataFrame) (p : Z) (a : string) (depts : list string) (t : Row) :
  List.Forall valid_code depts ->
  period t = p -> department t <> "AD" -> ~ In (department t) depts ->
  exists s s',
    calculate_all_metrics df p a depts ALL_METRIC_ORDER = Some s /\
    calculate_all_metrics (t :: df) p a depts ALL_METRIC_ORDER = Some s' /\
    (exists x,
        reports s Global country_revenue (Float (pence x)) /\
        reports s' Global country_revenue (Float (pence (amount t + x)))) /\
    (forall n v,
        In n [country_bd_count; ad_dept_bd_count; total_bd_count] ->
        reports s Global n v -> reports s' Global n v) /\
    (forall d n v, In d depts -> reports s d n v -> reports s' d n v).
Proof.
  intros Hvalid Hper Hnad Hout.
  destruct (summary_spec df p a depts Hvalid) as (s & E & Hg & Hd).
  destruct (summary_spec (t :: df) p a depts Hvalid) as (s' & E' & Hg' & Hd').
  destruct (summary_names_in_order df p a depts Hvalid) as (s0 & E0 & Hs).
  assert (Es : s0 = s) by congruence. subst s0.
  exists s, s'. split; [exact E|]. split; [exact E'|].
  assert (Had : String.eqb (department t) "AD" = false)
    by (apply String.eqb_neq, Hnad).
  assert (Hmem : PyStr.mem (department t) depts = false)
    by (apply mem_not_In, Hout).
  assert (Hp : (period t =? p) = true) by (apply Z.eqb_eq, Hper).
  split; [|split].
  - eexists. split; [apply Hg; pick_entry|].
    assert (EN : total_pence
                   (List.filter (eqZ period p &&& neS department "AD") (t :: df))
                 = amount t +
                   total_pence
                     (List.filter (eqZ period p &&& neS department "AD") df)).
    { rewrite total_pence_cons. unfold mand, eqZ, neS. rewrite Hp, Had.
      reflexivity. }
    rewrite <- EN. apply Hg'; pick_entry.
  - intros n v Hn Hrep.
    apply (reports_in_closed_form s Global n v
             (global_closed_form df p a depts)
             (global_closed_form_names df p a depts) Hs Hg) in Hrep.
    apply Hg'.
    assert (EC : List.filter
                   (eqZ period p &&& isin department depts &&&
                    eqS business_attribute a) (t :: df) =
                 List.filter
                   (eqZ period p &&& isin department depts &&&
                    eqS business_attribute a) df).
    { apply filter_cons_skip. unfold mand, isin. rewrite Hmem.
      destruct (eqZ period p t); reflexivity. }
    assert (EB : List.filter (eqZ period p &&& eqS department "AD") (t :: df) =
                 List.filter (eqZ period p &&& eqS department "AD") df).
    { apply filter_cons_skip. unfold mand, eqS. rewrite Had.
      destruct (eqZ period p t); reflexivity. }
    unfold global_closed_form in Hrep |- *. rewrite EC, EB.
    cbn [In] in Hn, Hrep |- *.
    destruct Hn as [<-|[<-|[<-|[]]]];
      repeat (destruct Hrep as [Hrep|Hrep];
              [first [discriminate Hrep
                     | injection Hrep as <-;
                       repeat first [left; reflexivity | right]]|]);
      contradiction.
  - intros d n v Hin Hrep.
    apply (reports_in_closed_form s d n v (dept_closed_form d df p a)
             (dept_closed_form_names d df p a) Hs
             (fun n' v' => Hd d n' v' Hin)) in Hrep.
    apply (Hd' d n v Hin).
    assert (Hdd : String.eqb (department t) d = false).
    { apply String.eqb_neq. intros Heq. rewrite Heq in Hout. contradiction. }
    assert (E1 : forall c : Mask,
               List.filter (eqZ period p &&& eqS department d &&& c) (t :: df) =
               List.filter (eqZ period p &&& eqS department d &&& c) df).
    { intros c. apply filter_cons_skip. unfold mand, eqS. rewrite Hdd.
      destruct (eqZ period p t); reflexivity. }
    assert (E2 : List.filter (eqZ period p &&& eqS department d) (t :: df) =
                 List.filter (eqZ period p &&& eqS department d) df).
    { apply filter_cons_skip. unfold mand, eqS. rewrite Hdd.
      destruct (eqZ period p t); reflexivity. }
    assert (E3 : List.filter
                   (eqZ period p &&& eqS department "AD" &&& eqS country d)
                   (t :: df) =
                 List.filter
                   (eqZ period p &&& eqS department "AD" &&& eqS country d) df).
    { apply filter_cons_skip. unfold mand, eqS. rewrite Had.
      destruct (eqZ period p t); reflexivity. }
    unfold dept_closed_form. rewrite !E1, E2, E3. exact Hrep.
Qed.

(** X18 at a transaction of the department OTHER added to the
    single-transaction scenario. *)
Lemma X18_unlisted_department_witness :
  List.Forall valid_code DEPARTMENTS_COUNTRY /\
  exists s s',
    calculate_all_metrics [scenario_au_row] TARGET_PERIOD TARGET_BUSINESS_ATTR
      DEPARTMENTS_COUNTRY ALL_METRIC_ORDER = Some s /\
    calculate_all_metrics
      [mkRow 202509 "OTHER" "OTHER" "异业广告" 7700 TARGET_BUSINESS_ATTR 9;
       scenario_au_row]
      TARGET_PERIOD TARGET_BUSINESS_ATTR DEPARTMENTS_COUNTRY ALL_METRIC_ORDER
      = Some s' /\
    exists x,
      reports s Global country_revenue (Float (pence x)) /\
      reports s' Global country_revenue (Float (pence (7700 + x))).
Proof.
  split; [exact valid_departments_country|].
  destruct (X18_unlisted_department_counts_only_in_global_revenue
              [scenario_au_row] TARGET_PERIOD TARGET_BUSINESS_ATTR
              DEPARTMENTS_COUNTRY
              (mkRow 202509 "OTHER" "OTHER" "异业广告" 7700 TARGET_BUSINESS_ATTR 9)
              valid_departments_country eq_refl)
    as (s & s' & E & E' & H & _).
  - discriminate.
  - cbn. intros H. repeat (destruct H as [H|H]; [discriminate H|]). exact H.
  - exists s, s'. split; [exact E|]. split; [exact E' | exact H].
Defined.
